(** * Stateful precompiles of subnet-evm: native minter, fee config manager

    A shallow embedding of
      - precompile/contract_native_minter.go   (PackMintInput, UnpackMintInput,
        createMintNativeCoin),
      - the fee config manager precompile      (UnpackFeeConfigInput,
        PackSetFeeConfigInput, GetFeeConfig, setFeeConfig, createSetFeeConfig),
      - the xChainECRecover precompile         (createXChainECRecover,
        getXChainECRecover),
    together with the helpers these files call.

    Conventions of the embedding.
      - [[]byte] is [list byte]; Go's nil slice and the empty slice are both
        the empty list.
      - [common.Address] ([20]byte) and [common.Hash] ([32]byte) are
        [list byte]; the array length is a hypothesis where it matters.
      - [*big.Int] is [option Z], [None] being the nil pointer.
      - [uint64] gas is [N]; the only arithmetic on it is a subtraction
        guarded by a comparison, which cannot wrap.
      - a Go function returning [(T, error)] returns a pair whose second
        component is [option error] ([None] is the nil error).
      - a run-time panic (nil dereference, [FillBytes] on a value that does
        not fit) is the [Panics] outcome.
      - the state database is passed explicitly and returned. *)

From Stdlib Require Import ZArith NArith Lia.
From Stdlib Require Import Strings.Byte.
From stdpp Require Import base tactics option list countable gmap.

Local Open Scope Z_scope.

(** ** Outcomes: a call either returns or panics *)

Inductive outcome (A : Type) : Type :=
| Returns (a : A)
| Panics.
Arguments Returns {A} a.
Arguments Panics {A}.

Definition obind {A B} (m : outcome A) (k : A -> outcome B) : outcome B :=
  match m with
  | Returns a => k a
  | Panics => Panics
  end.

Notation "'let!' x ':=' m 'in' k" := (obind m (fun x => k))
  (at level 10, x pattern, m at level 100, k at level 200).

(** ** Bytes and big-endian numbers *)

Definition byte_of_N (n : N) : byte :=
  match Byte.of_N (n mod 256)%N with
  | Some b => b
  | None => x00
  end.

(** [n] bytes, big-endian, of [v] modulo [256^n]. *)
Fixpoint be_bytes (n : nat) (v : N) : list byte :=
  match n with
  | O => []
  | S n' => be_bytes n' (v / 256)%N ++ [byte_of_N v]
  end.

(** The unsigned number a big-endian byte string denotes. *)
Definition from_be (l : list byte) : N :=
  fold_left (fun acc b => (acc * 256 + Byte.to_N b)%N) l 0%N.

(** Number of bytes of the minimal big-endian representation. *)
Definition byte_len (v : N) : nat := N.to_nat ((N.size v + 7) / 8)%N.

Definition zeros (n : nat) : list byte := replicate n x00.

(** The last [n] bytes of [b] when it is longer than [n], else [b] put at
    the right of [n] zero bytes: what [SetBytes] of a fixed-size array type
    of go-ethereum's [common] package does. *)
Definition right_align (n : nat) (b : list byte) : list byte :=
  let b' := if (n <? length b)%nat then drop (length b - n) b else b in
  zeros (n - length b') ++ b'.

(** ** math/big *)

Module big.

(** [new(big.Int).SetBytes(buf)]: [buf] read as a big-endian unsigned
    integer. *)
Definition SetBytes (buf : list byte) : option Z :=
  Some (Z.of_N (from_be buf)).

(** [x.Bytes()]: the absolute value of [x] as a big-endian byte slice
    without leading zeros. *)
Definition Bytes (x : option Z) : outcome (list byte) :=
  match x with
  | None => Panics
  | Some z => Returns (be_bytes (byte_len (Z.abs_N z)) (Z.abs_N z))
  end.

(** [x.FillBytes(make([]byte, n))]: the absolute value of [x],
    zero-extended to [n] bytes; panics when it does not fit. *)
Definition FillBytes (x : option Z) (n : nat) : outcome (list byte) :=
  match x with
  | None => Panics
  | Some z =>
      if (n <? byte_len (Z.abs_N z))%nat then Panics
      else Returns (be_bytes n (Z.abs_N z))
  end.

(** [new(big.Int).Set(x)] *)
Definition Set_ (x : option Z) : outcome (option Z) :=
  match x with
  | None => Panics
  | Some z => Returns (Some z)
  end.

End big.

(** ** go-ethereum's common package *)

Module common.

Definition HashLength : nat := 32.
Definition AddressLength : nat := 20.

Definition Address := list byte.
Definition Hash := list byte.

(** [common.Address{}] and [common.Hash{}] *)
Definition zeroAddress : Address := zeros AddressLength.
Definition zeroHash : Hash := zeros HashLength.

Definition BytesToHash (b : list byte) : Hash := right_align HashLength b.
Definition BytesToAddress (b : list byte) : Address :=
  right_align AddressLength b.

(** [a.Hash()] *)
Definition Address_Hash (a : Address) : Hash := BytesToHash a.

(** [common.BigToHash(b)] is [BytesToHash(b.Bytes())]. *)
Definition BigToHash (b : option Z) : outcome Hash :=
  let! bs := big.Bytes b in Returns (BytesToHash bs).

(** [h.Big()] *)
Definition Hash_Big (h : Hash) : option Z := big.SetBytes h.

(** What [BigToHash] returns on a non-nil argument. *)
Definition hashOfBig (z : Z) : Hash :=
  BytesToHash (be_bytes (byte_len (Z.abs_N z)) (Z.abs_N z)).

(** The composite literal [common.Hash{b}]: first byte [b], the rest 0. *)
Definition Hash_lit (b : byte) : Hash := b :: zeros (HashLength - 1).

End common.

(** ** Constants declared elsewhere in the package

    The precompile addresses, the gas costs and the function selectors are
    declared in other files of the package; they are parameters here.  [CalculateFunctionSelector] returns the first
    four bytes of a hash, so a selector is four bytes by type. *)

Definition selector : Type := byte * byte * byte * byte.

Definition selector_bytes (s : selector) : list byte :=
  let '(a, b, c, d) := s in [a; b; c; d].

Definition selectorLen : nat := 4.

Class Params := {
  ContractNativeMinterAddress : common.Address;
  FeeConfigManagerAddress : common.Address;
  ContractXchainECRecoverAddress : common.Address;
  MintGasCost : N;
  SetFeeConfigGasCost : N;
  ReadAllowListGasCost : N;
  ModifyAllowListGasCost : N;
  mintSignature : selector;
  setFeeConfigSignature : selector;
}.

(** ** Errors *)

Inductive error : Type :=
| ErrOutOfGas                                   (* vmerrs.ErrOutOfGas *)
| ErrWriteProtection                            (* vmerrs.ErrWriteProtection *)
| ErrInvalidMintInputLength (len : nat)         (* "invalid input length for minting: %d" *)
| ErrInvalidFeeConfigInputLength (len : nat)    (* "invalid input length for fee config input: %d" *)
| ErrCannotMint (caller : common.Address)       (* "%w: %s", ErrCannotMint, caller *)
| ErrCannotChangeFee (caller : common.Address)  (* "%w: %s", ErrCannotChangeFee, caller *)
| ErrUnknownFieldKey (i : nat)                  (* "unknown field key %d" *)
| ErrEncodingLengthMismatch (got want : nat)    (* inputPackOrdered *)
| ErrInvalidAllowListInputLength (len : nat)    (* allow list handlers *)
| ErrCannotModifyAllowList (caller : common.Address).

(** The error taxonomy of the specification. *)
Inductive ErrorKind : Type :=
| OutOfGas
| WriteProtection
| InvalidInputLength
| PermissionDenied
| InternalConsistency
| EncodingLengthMismatch.

Definition kind_of (e : error) : ErrorKind :=
  match e with
  | ErrOutOfGas => OutOfGas
  | ErrWriteProtection => WriteProtection
  | ErrInvalidMintInputLength _ => InvalidInputLength
  | ErrInvalidFeeConfigInputLength _ => InvalidInputLength
  | ErrInvalidAllowListInputLength _ => InvalidInputLength
  | ErrCannotMint _ => PermissionDenied
  | ErrCannotChangeFee _ => PermissionDenied
  | ErrCannotModifyAllowList _ => PermissionDenied
  | ErrUnknownFieldKey _ => InternalConsistency
  | ErrEncodingLengthMismatch _ _ => EncodingLengthMismatch
  end.

(** ** The state database *)

#[global] Instance byte_eq_decision : EqDecision byte := Byte.byte_eq_dec.
#[global] Instance byte_countable : Countable byte :=
  inj_countable Byte.to_N Byte.of_N Byte.of_to_N.

(** An account: its balance (a [*big.Int], never nil once the account
    exists) and its storage slots. *)
Record stateObject : Type := mkStateObject {
  balance : Z;
  storage : gmap (list byte) (list byte);
}.

Definition newObject : stateObject :=
  {| balance := 0; storage := ∅ |}.

Abbreviation StateDB := (gmap (list byte) stateObject).

Module StateDB_.

(** Modelled from the spec: the [StateDB] interface and its implementation
    are declared outside the files embedded here.  The specification lists
    the collaborator as [StateAccessor{ exists(addr)->bool;
    createAccount(addr); addBalance(addr, amount); getSlot(addr,key)->value;
    setSlot(addr,key,value) }]; an account is created with zero balance, a
    slot never written reads as the zero value, and a contract "has no
    stored state at all" until something is written under its address.
    [Exist] is [exists(addr)]. *)
Definition Exist (s : StateDB) (addr : common.Address) : bool :=
  bool_decide (is_Some (s !! addr)).

(** Modelled from the spec: the record a write to [addr] works on; a write
    to an address without a record starts from a fresh one. *)
Definition getOrNewStateObject (s : StateDB) (addr : common.Address)
  : stateObject :=
  default newObject (s !! addr).

(** Modelled from the spec: [createAccount(addr)] makes a record with zero
    balance and no storage.  The mint handler calls it only when [Exist] is
    false; on an address that has a record the balance is kept. *)
Definition CreateAccount (s : StateDB) (addr : common.Address) : StateDB :=
  <[addr := {| balance := balance (getOrNewStateObject s addr);
               storage := ∅ |}]> s.

(** Modelled from the spec: [addBalance(addr, amount)] increases the balance
    of [addr] by [amount]; [amount] is a [*big.Int] and is dereferenced. *)
Definition AddBalance (s : StateDB) (addr : common.Address)
    (amount : option Z) : outcome StateDB :=
  match amount with
  | None => Panics
  | Some a =>
      let o := getOrNewStateObject s addr in
      Returns (<[addr := {| balance := balance o + a;
                            storage := storage o |}]> s)
  end.

(** Modelled from the spec: the balance of [addr], zero without a
    record. *)
Definition GetBalance (s : StateDB) (addr : common.Address) : Z :=
  match s !! addr with
  | Some o => balance o
  | None => 0
  end.

(** Modelled from the spec: [getSlot(addr, key)]. *)
Definition GetState (s : StateDB) (addr : common.Address)
    (key : common.Hash) : common.Hash :=
  match s !! addr with
  | Some o => default common.zeroHash (storage o !! key)
  | None => common.zeroHash
  end.

(** Modelled from the spec: [setSlot(addr, key, value)]. *)
Definition SetState (s : StateDB) (addr : common.Address)
    (key value : common.Hash) : StateDB :=
  let o := getOrNewStateObject s addr in
  <[addr := {| balance := balance o;
               storage := <[key := value]> (storage o) |}]> s.

End StateDB_.

Import StateDB_.

(** ** Helpers of the package (utils, allow list) *)

(** Modelled from the spec: [deductGas] is declared outside the files
    embedded here.
    [GasBudget{ deduct(cost)->(remaining, ok) }]: insufficient budget fails
    with OutOfGas and zero remaining gas. *)
Definition deductGas (suppliedGas requiredGas : N) : N * option error :=
  if (suppliedGas <? requiredGas)%N then (0%N, Some ErrOutOfGas)
  else ((suppliedGas - requiredGas)%N, None).

(** Modelled from the spec: [returnPackedElement] is declared outside the
    files embedded here.  [unpackElement(input, index)] returns the slice
    [[index*32, index*32+32)]; the caller validates the total length
    beforehand. *)
Definition returnPackedElement (packed : list byte) (index : nat)
  : list byte :=
  take common.HashLength (drop (common.HashLength * index) packed).

(** Modelled from the spec: [inputPackOrdered] is declared outside the
    files embedded here.  [packOrdered(parts, totalLen)] concatenates the parts and
    fails if the concatenated length differs from [totalLen]. *)
Definition inputPackOrdered (inputs : list (list byte)) (fullLen : nat)
  : list byte * option error :=
  let packed := concat inputs in
  if (length packed =? fullLen)%nat then (packed, None)
  else ([], Some (ErrEncodingLengthMismatch (length packed) fullLen)).

(** Modelled from the spec: the allow list is declared outside the files
    embedded here.  Role is the ordered enum None < Enabled < Admin, stored as a 256-bit
    slot value of which only the low byte is significant. *)
Inductive AllowListRole : Type :=
| AllowListNoRole
| AllowListEnabled
| AllowListAdmin.

(** Modelled from the spec: the order None < Enabled < Admin, which is
    also the number a role is stored as. *)
Definition role_rank (r : AllowListRole) : nat :=
  match r with
  | AllowListNoRole => 0
  | AllowListEnabled => 1
  | AllowListAdmin => 2
  end.

(** Modelled from the spec: [IsEnabled] is Role >= Enabled. *)
Definition IsEnabled (r : AllowListRole) : bool :=
  (role_rank AllowListEnabled <=? role_rank r)%nat.

(** Modelled from the spec: the caller of a role setter must hold
    Admin. *)
Definition IsAdmin (r : AllowListRole) : bool :=
  (role_rank AllowListAdmin <=? role_rank r)%nat.

(** Modelled from the spec: the role a slot value denotes; the implicit
    default is None. *)
Definition role_of_hash (h : common.Hash) : AllowListRole :=
  match from_be (drop (common.HashLength - 1) h) with
  | 1%N => AllowListEnabled
  | 2%N => AllowListAdmin
  | _ => AllowListNoRole
  end.

(** Modelled from the spec: the 256-bit slot value of a role. *)
Definition role_to_hash (r : AllowListRole) : common.Hash :=
  be_bytes common.HashLength (N.of_nat (role_rank r)).

(** Modelled from the spec: [getRole(state, contract, subject)] reads the
    slot keyed by the subject's 256-bit form under the contract; None if
    never written. *)
Definition getAllowListStatus (stateDB : StateDB)
    (precompileAddr address : common.Address) : AllowListRole :=
  role_of_hash (GetState stateDB precompileAddr (common.Address_Hash address)).

(** Modelled from the spec: [setRole(state, contract, subject, role)] is an
    unconditional overwrite. *)
Definition setAllowListRole (stateDB : StateDB)
    (precompileAddr address : common.Address) (role : AllowListRole)
  : StateDB :=
  SetState stateDB precompileAddr (common.Address_Hash address)
    (role_to_hash role).

(** ** What a handler returns

    [(ret []byte, remainingGas uint64, err error)], and the state database
    after the call. *)
Record result : Type := mkResult {
  ret : list byte;
  remainingGas : N;
  err : option error;
  state : StateDB;
}.

Definition RunStatefulPrecompileFunc : Type :=
  StateDB -> common.Address -> common.Address -> list byte -> N -> bool ->
  outcome result.

Section Precompiles.
Context `{Params}.

(** ** precompile/contract_native_minter.go *)

Definition mintInputLen : nat := common.HashLength + common.HashLength.

Definition PackMintInput (address : common.Address) (amount : option Z)
  : outcome (list byte * option error) :=
  let fullLen := (selectorLen + mintInputLen)%nat in
  let! amountBytes := big.FillBytes amount 32 in
  let packed :=
    [ selector_bytes mintSignature;
      common.Address_Hash address;
      amountBytes ] in
  Returns (inputPackOrdered packed fullLen).

Definition UnpackMintInput (input : list byte)
  : common.Address * option Z * option error :=
  if negb (length input =? mintInputLen)%nat then
    (common.zeroAddress, None, Some (ErrInvalidMintInputLength (length input)))
  else
    let to := common.BytesToAddress (returnPackedElement input 0) in
    let assetAmount := big.SetBytes (returnPackedElement input 1) in
    (to, assetAmount, None).

Definition createMintNativeCoin : RunStatefulPrecompileFunc :=
  fun stateDB caller addr input suppliedGas readOnly =>
  let '(remainingGas, err) := deductGas suppliedGas MintGasCost in
  match err with
  | Some e => Returns (mkResult [] 0%N (Some e) stateDB)
  | None =>
    if readOnly then
      Returns (mkResult [] remainingGas (Some ErrWriteProtection) stateDB)
    else
      let '(to, amount, err) := UnpackMintInput input in
      match err with
      | Some e => Returns (mkResult [] remainingGas (Some e) stateDB)
      | None =>
        let callerStatus :=
          getAllowListStatus stateDB ContractNativeMinterAddress caller in
        if negb (IsEnabled callerStatus) then
          Returns (mkResult [] remainingGas (Some (ErrCannotMint caller))
                     stateDB)
        else
          let stateDB :=
            if negb (Exist stateDB to) then CreateAccount stateDB to
            else stateDB in
          let! stateDB := AddBalance stateDB to amount in
          Returns (mkResult [] remainingGas None stateDB)
      end
  end.

(** ** The xChainECRecover precompile

    The calls to [log.Info] write to the node's log and are left out. *)

Definition createXChainECRecover : RunStatefulPrecompileFunc :=
  fun stateDB caller addr input suppliedGas readOnly =>
  let '(remainingGas, err) := deductGas suppliedGas MintGasCost in
  match err with
  | Some e => Returns (mkResult [] 0%N (Some e) stateDB)
  | None =>
    if readOnly then
      Returns (mkResult [] remainingGas (Some ErrWriteProtection) stateDB)
    else
      (* []byte(string(input[:])): a copy of the bytes of input *)
      let out := input in
      Returns (mkResult out remainingGas None stateDB)
  end.

Definition getXChainECRecover (precompileAddr : common.Address)
  : RunStatefulPrecompileFunc :=
  fun evm callerAddr addr input suppliedGas readOnly =>
  let '(remainingGas, err) := deductGas suppliedGas ReadAllowListGasCost in
  match err with
  | Some e => Returns (mkResult [] 0%N (Some e) evm)
  | None =>
    let out := input in
    Returns (mkResult out remainingGas None evm)
  end.

(** ** The fee config manager precompile *)

(* must preserve order of these fields *)
Definition gasLimitKey : nat := 0.
Definition targetBlockRateKey : nat := 1.
Definition minBaseFeeKey : nat := 2.
Definition targetGasKey : nat := 3.
Definition baseFeeChangeDenominatorKey : nat := 4.
Definition minBlockGasCostKey : nat := 5.
Definition maxBlockGasCostKey : nat := 6.
Definition blockGasCostStepKey : nat := 7.

Definition minKey : nat := gasLimitKey.
Definition maxKey : nat := blockGasCostStepKey.

(* 8 fields in FeeConfig struct *)
Definition feeConfigInputLen : nat :=
  common.HashLength * (maxKey - minKey + 1).

Record FeeConfig : Type := mkFeeConfig {
  GasLimit : option Z;
  TargetBlockRate : option Z;
  MinBaseFee : option Z;
  TargetGas : option Z;
  BaseFeeChangeDenominator : option Z;
  MinBlockGasCost : option Z;
  MaxBlockGasCost : option Z;
  BlockGasCostStep : option Z;
}.

(** The composite literal [FeeConfig{}]: every field is the nil pointer. *)
Definition FeeConfig_zero : FeeConfig :=
  mkFeeConfig None None None None None None None None.

Definition set_GasLimit (v : option Z) (c : FeeConfig) : FeeConfig :=
  mkFeeConfig v (TargetBlockRate c) (MinBaseFee c) (TargetGas c)
    (BaseFeeChangeDenominator c) (MinBlockGasCost c) (MaxBlockGasCost c)
    (BlockGasCostStep c).
Definition set_TargetBlockRate (v : option Z) (c : FeeConfig) : FeeConfig :=
  mkFeeConfig (GasLimit c) v (MinBaseFee c) (TargetGas c)
    (BaseFeeChangeDenominator c) (MinBlockGasCost c) (MaxBlockGasCost c)
    (BlockGasCostStep c).
Definition set_MinBaseFee (v : option Z) (c : FeeConfig) : FeeConfig :=
  mkFeeConfig (GasLimit c) (TargetBlockRate c) v (TargetGas c)
    (BaseFeeChangeDenominator c) (MinBlockGasCost c) (MaxBlockGasCost c)
    (BlockGasCostStep c).
Definition set_TargetGas (v : option Z) (c : FeeConfig) : FeeConfig :=
  mkFeeConfig (GasLimit c) (TargetBlockRate c) (MinBaseFee c) v
    (BaseFeeChangeDenominator c) (MinBlockGasCost c) (MaxBlockGasCost c)
    (BlockGasCostStep c).
Definition set_BaseFeeChangeDenominator (v : option Z) (c : FeeConfig)
  : FeeConfig :=
  mkFeeConfig (GasLimit c) (TargetBlockRate c) (MinBaseFee c) (TargetGas c)
    v (MinBlockGasCost c) (MaxBlockGasCost c) (BlockGasCostStep c).
Definition set_MinBlockGasCost (v : option Z) (c : FeeConfig) : FeeConfig :=
  mkFeeConfig (GasLimit c) (TargetBlockRate c) (MinBaseFee c) (TargetGas c)
    (BaseFeeChangeDenominator c) v (MaxBlockGasCost c) (BlockGasCostStep c).
Definition set_MaxBlockGasCost (v : option Z) (c : FeeConfig) : FeeConfig :=
  mkFeeConfig (GasLimit c) (TargetBlockRate c) (MinBaseFee c) (TargetGas c)
    (BaseFeeChangeDenominator c) (MinBlockGasCost c) v (BlockGasCostStep c).
Definition set_BlockGasCostStep (v : option Z) (c : FeeConfig) : FeeConfig :=
  mkFeeConfig (GasLimit c) (TargetBlockRate c) (MinBaseFee c) (TargetGas c)
    (BaseFeeChangeDenominator c) (MinBlockGasCost c) (MaxBlockGasCost c) v.

Definition PackSetFeeConfigInput (feeConfig : FeeConfig)
  : outcome (list byte * option error) :=
  let fullLen := (selectorLen + feeConfigInputLen)%nat in
  let! b0 := big.FillBytes (GasLimit feeConfig) 32 in
  let! b1 := big.FillBytes (TargetBlockRate feeConfig) 32 in
  let! b2 := big.FillBytes (MinBaseFee feeConfig) 32 in
  let! b3 := big.FillBytes (TargetGas feeConfig) 32 in
  let! b4 := big.FillBytes (BaseFeeChangeDenominator feeConfig) 32 in
  let! b5 := big.FillBytes (MinBlockGasCost feeConfig) 32 in
  let! b6 := big.FillBytes (MaxBlockGasCost feeConfig) 32 in
  let! b7 := big.FillBytes (BlockGasCostStep feeConfig) 32 in
  let packed :=
    [ selector_bytes setFeeConfigSignature; b0; b1; b2; b3; b4; b5; b6; b7 ] in
  Returns (inputPackOrdered packed fullLen).

Definition UnpackFeeConfigInput (input : list byte)
  : FeeConfig * option error :=
  if negb (length input =? feeConfigInputLen)%nat then
    (FeeConfig_zero, Some (ErrInvalidFeeConfigInputLength (length input)))
  else
    ({| GasLimit := big.SetBytes (returnPackedElement input 0);
        TargetBlockRate := big.SetBytes (returnPackedElement input 1);
        MinBaseFee := big.SetBytes (returnPackedElement input 2);
        TargetGas := big.SetBytes (returnPackedElement input 3);
        BaseFeeChangeDenominator := big.SetBytes (returnPackedElement input 4);
        MinBlockGasCost := big.SetBytes (returnPackedElement input 5);
        MaxBlockGasCost := big.SetBytes (returnPackedElement input 6);
        BlockGasCostStep := big.SetBytes (returnPackedElement input 7) |},
     None).

(** The keys [i] visited by [for i := minKey; i <= maxKey; i++]. *)
Definition fieldKeys : list nat := seq minKey (maxKey + 1 - minKey).

(** [common.Hash{byte(i)}] *)
Definition fieldSlot (i : nat) : common.Hash :=
  common.Hash_lit (byte_of_N (N.of_nat i)).

(** One iteration of the loop of [GetFeeConfig]: [inl] carries the struct
    on to the next iteration, [inr] is the return of the default case. *)
Definition GetFeeConfig_body (stateDB : StateDB) (i : nat)
    (feeConfig : FeeConfig)
  : outcome (FeeConfig + (FeeConfig * option error)) :=
  let val := GetState stateDB FeeConfigManagerAddress (fieldSlot i) in
  if (i =? gasLimitKey)%nat then
    let! v := big.Set_ (common.Hash_Big val) in
    Returns (inl (set_GasLimit v feeConfig))
  else if (i =? targetBlockRateKey)%nat then
    let! v := big.Set_ (common.Hash_Big val) in
    Returns (inl (set_TargetBlockRate v feeConfig))
  else if (i =? minBaseFeeKey)%nat then
    let! v := big.Set_ (common.Hash_Big val) in
    Returns (inl (set_MinBaseFee v feeConfig))
  else if (i =? targetGasKey)%nat then
    let! v := big.Set_ (common.Hash_Big val) in
    Returns (inl (set_TargetGas v feeConfig))
  else if (i =? baseFeeChangeDenominatorKey)%nat then
    let! v := big.Set_ (common.Hash_Big val) in
    Returns (inl (set_BaseFeeChangeDenominator v feeConfig))
  else if (i =? minBlockGasCostKey)%nat then
    let! v := big.Set_ (common.Hash_Big val) in
    Returns (inl (set_MinBlockGasCost v feeConfig))
  else if (i =? maxBlockGasCostKey)%nat then
    let! v := big.Set_ (common.Hash_Big val) in
    Returns (inl (set_MaxBlockGasCost v feeConfig))
  else if (i =? blockGasCostStepKey)%nat then
    let! v := big.Set_ (common.Hash_Big val) in
    Returns (inl (set_BlockGasCostStep v feeConfig))
  else
    Returns (inr (FeeConfig_zero, Some (ErrUnknownFieldKey i))).

Fixpoint GetFeeConfig_loop (stateDB : StateDB) (keys : list nat)
    (feeConfig : FeeConfig) : outcome (FeeConfig * option error) :=
  match keys with
  | [] => Returns (feeConfig, None)
  | i :: keys' =>
      let! r := GetFeeConfig_body stateDB i feeConfig in
      match r with
      | inl feeConfig' => GetFeeConfig_loop stateDB keys' feeConfig'
      | inr early => Returns early
      end
  end.

Definition GetFeeConfig (stateDB : StateDB)
  : outcome (FeeConfig * option error) :=
  if negb (Exist stateDB FeeConfigManagerAddress) then
    Returns (FeeConfig_zero, None)
  else
    GetFeeConfig_loop stateDB fieldKeys FeeConfig_zero.

(** One iteration of the loop of [setFeeConfig]: [inl] is the state after
    the [SetState] of this iteration, [inr] the error of the default case
    (the state is then what the earlier iterations left). *)
Definition setFeeConfig_body (stateDB : StateDB) (feeConfig : FeeConfig)
    (i : nat) : outcome (StateDB + error) :=
  let store (h : outcome common.Hash) : outcome (StateDB + error) :=
    let! hashInput := h in
    Returns (inl (SetState stateDB FeeConfigManagerAddress (fieldSlot i)
                    hashInput)) in
  if (i =? gasLimitKey)%nat then
    store (common.BigToHash (GasLimit feeConfig))
  else if (i =? targetBlockRateKey)%nat then
    store (common.BigToHash (TargetBlockRate feeConfig))
  else if (i =? minBaseFeeKey)%nat then
    store (common.BigToHash (MinBaseFee feeConfig))
  else if (i =? targetGasKey)%nat then
    store (common.BigToHash (TargetGas feeConfig))
  else if (i =? baseFeeChangeDenominatorKey)%nat then
    store (common.BigToHash (BaseFeeChangeDenominator feeConfig))
  else if (i =? minBlockGasCostKey)%nat then
    store (common.BigToHash (MinBlockGasCost feeConfig))
  else if (i =? maxBlockGasCostKey)%nat then
    store (common.BigToHash (MaxBlockGasCost feeConfig))
  else if (i =? blockGasCostStepKey)%nat then
    store (common.BigToHash (BlockGasCostStep feeConfig))
  else
    Returns (inr (ErrUnknownFieldKey i)).

Fixpoint setFeeConfig_loop (keys : list nat) (stateDB : StateDB)
    (feeConfig : FeeConfig) : outcome (StateDB * option error) :=
  match keys with
  | [] => Returns (stateDB, None)
  | i :: keys' =>
      let! r := setFeeConfig_body stateDB feeConfig i in
      match r with
      | inl stateDB' => setFeeConfig_loop keys' stateDB' feeConfig
      | inr e => Returns (stateDB, Some e)
      end
  end.

Definition setFeeConfig (stateDB : StateDB) (feeConfig : FeeConfig)
  : outcome (StateDB * option error) :=
  setFeeConfig_loop fieldKeys stateDB feeConfig.

Definition createSetFeeConfig : RunStatefulPrecompileFunc :=
  fun stateDB caller addr input suppliedGas readOnly =>
  let '(remainingGas, err) := deductGas suppliedGas SetFeeConfigGasCost in
  match err with
  | Some e => Returns (mkResult [] 0%N (Some e) stateDB)
  | None =>
    if readOnly then
      Returns (mkResult [] remainingGas (Some ErrWriteProtection) stateDB)
    else
      let '(feeConfig, err) := UnpackFeeConfigInput input in
      match err with
      | Some e => Returns (mkResult [] remainingGas (Some e) stateDB)
      | None =>
        let callerStatus :=
          getAllowListStatus stateDB FeeConfigManagerAddress caller in
        if negb (IsEnabled callerStatus) then
          Returns (mkResult [] remainingGas (Some (ErrCannotChangeFee caller))
                     stateDB)
        else
          (* the error setFeeConfig returns is dropped by the handler *)
          let! r := setFeeConfig stateDB feeConfig in
          let stateDB := fst r in
          Returns (mkResult [] remainingGas None stateDB)
      end
  end.

(** ** The allow list handlers *)

Definition allowListInputLen : nat := common.HashLength.

(** Modelled from the spec: [createAllowListRoleSetter] is declared
    outside the files embedded here.  A role setter ([setAdmin], [setEnabled], [setNone])
    follows the handler order of the dispatch table (deduct the fixed gas
    cost; fail with WriteProtection when read-only; decode; check
    permission; mutate; return); the caller must already hold Admin on the
    contract. *)
Definition createAllowListRoleSetter (precompileAddr : common.Address)
    (role : AllowListRole) : RunStatefulPrecompileFunc :=
  fun stateDB callerAddr addr input suppliedGas readOnly =>
  let '(remainingGas, err) := deductGas suppliedGas ModifyAllowListGasCost in
  match err with
  | Some e => Returns (mkResult [] 0%N (Some e) stateDB)
  | None =>
    if readOnly then
      Returns (mkResult [] remainingGas (Some ErrWriteProtection) stateDB)
    else if negb (length input =? allowListInputLen)%nat then
      Returns (mkResult [] remainingGas
                 (Some (ErrInvalidAllowListInputLength (length input)))
                 stateDB)
    else
      let modifyAddress := common.BytesToAddress input in
      let callerStatus :=
        getAllowListStatus stateDB precompileAddr callerAddr in
      if negb (IsAdmin callerStatus) then
        Returns (mkResult [] remainingGas
                   (Some (ErrCannotModifyAllowList callerAddr)) stateDB)
      else
        Returns (mkResult [] remainingGas None
                   (setAllowListRole stateDB precompileAddr modifyAddress
                      role))
  end.

(** Modelled from the spec: [createReadAllowList] is declared outside the
    files embedded here.  [readAllowList] needs no permission and is a pure read:
    it deducts its fixed gas cost, decodes one address and returns the
    32 bytes of its role. *)
Definition createReadAllowList (precompileAddr : common.Address)
  : RunStatefulPrecompileFunc :=
  fun stateDB callerAddr addr input suppliedGas readOnly =>
  let '(remainingGas, err) := deductGas suppliedGas ReadAllowListGasCost in
  match err with
  | Some e => Returns (mkResult [] 0%N (Some e) stateDB)
  | None =>
    if negb (length input =? allowListInputLen)%nat then
      Returns (mkResult [] remainingGas
                 (Some (ErrInvalidAllowListInputLength (length input)))
                 stateDB)
    else
      let readAddress := common.BytesToAddress input in
      let role := getAllowListStatus stateDB precompileAddr readAddress in
      Returns (mkResult (role_to_hash role) remainingGas None stateDB)
  end.

(** ** The handlers of the three contracts

    [createNativeMinterPrecompile] and [createFeeConfigManagerPrecompile]
    register [setAdmin], [setEnabled], [setNone] and [readAllowList] on
    their own address next to [mintNativeCoin], respectively
    [setFeeConfig]; [createXChainECRecoverPrecompile] registers
    [xChainECRecover] and [getXChainECRecover]. *)
Inductive handler : Type :=
| MintNativeCoin
| SetFeeConfig
| AllowListRoleSetter (precompileAddr : common.Address) (role : AllowListRole)
| ReadAllowList (precompileAddr : common.Address)
| XChainECRecover
| GetXChainECRecover (precompileAddr : common.Address).

Definition run (h : handler) : RunStatefulPrecompileFunc :=
  match h with
  | MintNativeCoin => createMintNativeCoin
  | SetFeeConfig => createSetFeeConfig
  | AllowListRoleSetter precompileAddr role =>
      createAllowListRoleSetter precompileAddr role
  | ReadAllowList precompileAddr => createReadAllowList precompileAddr
  | XChainECRecover => createXChainECRecover
  | GetXChainECRecover precompileAddr => getXChainECRecover precompileAddr
  end.

(** The fixed cost each handler passes to [deductGas]. *)
Definition gasCost (h : handler) : N :=
  match h with
  | MintNativeCoin => MintGasCost
  | SetFeeConfig => SetFeeConfigGasCost
  | AllowListRoleSetter _ _ => ModifyAllowListGasCost
  | ReadAllowList _ => ReadAllowListGasCost
  | XChainECRecover => MintGasCost
  | GetXChainECRecover _ => ReadAllowListGasCost
  end.

Definition nativeMinterHandlers (precompileAddr : common.Address)
  : list handler :=
  [ AllowListRoleSetter precompileAddr AllowListAdmin;
    AllowListRoleSetter precompileAddr AllowListEnabled;
    AllowListRoleSetter precompileAddr AllowListNoRole;
    ReadAllowList precompileAddr;
    MintNativeCoin ].

Definition feeConfigManagerHandlers (precompileAddr : common.Address)
  : list handler :=
  [ AllowListRoleSetter precompileAddr AllowListAdmin;
    AllowListRoleSetter precompileAddr AllowListEnabled;
    AllowListRoleSetter precompileAddr AllowListNoRole;
    ReadAllowList precompileAddr;
    SetFeeConfig ].

Definition xChainECRecoverHandlers (precompileAddr : common.Address)
  : list handler :=
  [ XChainECRecover; GetXChainECRecover precompileAddr ].

(** The fee configuration a state holds in the eight slots. *)
Definition storedFeeConfig (stateDB : StateDB) : FeeConfig :=
  let field (i : nat) :=
    common.Hash_Big (GetState stateDB FeeConfigManagerAddress (fieldSlot i)) in
  {| GasLimit := field gasLimitKey;
     TargetBlockRate := field targetBlockRateKey;
     MinBaseFee := field minBaseFeeKey;
     TargetGas := field targetGasKey;
     BaseFeeChangeDenominator := field baseFeeChangeDenominatorKey;
     MinBlockGasCost := field minBlockGasCostKey;
     MaxBlockGasCost := field maxBlockGasCostKey;
     BlockGasCostStep := field blockGasCostStepKey |}.

(** The state [setFeeConfig] leaves when its eight fields are stored as
    the hashes [hs], first to last. *)
Definition storeFields (stateDB : StateDB) (hs : list common.Hash)
  : StateDB :=
  foldl (fun st '(i, h) => SetState st FeeConfigManagerAddress (fieldSlot i) h)
    stateDB (zip fieldKeys hs).

(** Every field is set and is an unsigned 256-bit number. *)
Definition uint256 (x : option Z) : Prop :=
  exists z, x = Some z /\ 0 <= z < 2 ^ 256.

Definition FeeConfig_uint256 (c : FeeConfig) : Prop :=
  uint256 (GasLimit c) /\ uint256 (TargetBlockRate c) /\
  uint256 (MinBaseFee c) /\ uint256 (TargetGas c) /\
  uint256 (BaseFeeChangeDenominator c) /\ uint256 (MinBlockGasCost c) /\
  uint256 (MaxBlockGasCost c) /\ uint256 (BlockGasCostStep c).

(** ** Status accessors of the two allow-listed contracts *)

Definition GetContractNativeMinterStatus (stateDB : StateDB)
    (address : common.Address) : AllowListRole :=
  getAllowListStatus stateDB ContractNativeMinterAddress address.

Definition SetContractNativeMinterStatus (stateDB : StateDB)
    (address : common.Address) (role : AllowListRole) : StateDB :=
  setAllowListRole stateDB ContractNativeMinterAddress address role.

Definition GetFeeConfigManagerStatus (stateDB : StateDB)
    (address : common.Address) : AllowListRole :=
  getAllowListStatus stateDB FeeConfigManagerAddress address.

Definition SetFeeConfigManagerStatus (stateDB : StateDB)
    (address : common.Address) (role : AllowListRole) : StateDB :=
  setAllowListRole stateDB FeeConfigManagerAddress address role.

(** ** Vocabulary of the further properties *)

(** The number a 32-byte slot holds after [common.BigToHash] of [z]. *)
Definition stored256 (z : Z) : Z := Z.abs z mod 2 ^ 256.

(** A [*big.Int] that is not nil and whose absolute value fits 32 bytes. *)
Definition fits256 (x : option Z) : Prop :=
  exists z, x = Some z /\ Z.abs z < 2 ^ 256.

Definition FeeConfig_fields (c : FeeConfig) : list (option Z) :=
  [ GasLimit c; TargetBlockRate c; MinBaseFee c; TargetGas c;
    BaseFeeChangeDenominator c; MinBlockGasCost c; MaxBlockGasCost c;
    BlockGasCostStep c ].

Definition FeeConfig_map (f : Z -> Z) (c : FeeConfig) : FeeConfig :=
  {| GasLimit := f <$> GasLimit c;
     TargetBlockRate := f <$> TargetBlockRate c;
     MinBaseFee := f <$> MinBaseFee c;
     TargetGas := f <$> TargetGas c;
     BaseFeeChangeDenominator := f <$> BaseFeeChangeDenominator c;
     MinBlockGasCost := f <$> MinBlockGasCost c;
     MaxBlockGasCost := f <$> MaxBlockGasCost c;
     BlockGasCostStep := f <$> BlockGasCostStep c |}.

(** The slot [key] is none of the eight slots of the fee configuration. *)
Definition not_fee_slot (key : common.Hash) : Prop :=
  forall i : nat, (minKey <= i <= maxKey)%nat -> key <> fieldSlot i.

(** The slot [key] of [addr] as the map holds it: [None] when the account
    or the slot has no entry. *)
Definition lookup_slot (stateDB : StateDB) (addr : common.Address)
    (key : common.Hash) : option common.Hash :=
  match stateDB !! addr with
  | Some o => storage o !! key
  | None => None
  end.

(** The state in which the balance of [to] is [amount] more than in
    [stateDB] and nothing else differs; [to] has an account in it. *)
Definition creditBalance (stateDB : StateDB) (to : common.Address)
    (amount : Z) : StateDB :=
  <[to := {| balance := GetBalance stateDB to + amount;
             storage := match stateDB !! to with
                        | Some o => storage o
                        | None => ∅
                        end |}]> stateDB.

(** What every return of a handler has in common: the gas left depends on
    the budget and the fixed cost only, the out-of-gas error is returned
    exactly when the budget is below the cost, and a return with an error
    carries no output and the state the handler was given. *)
Definition charged_and_safe (h : handler) (stateDB : StateDB)
    (suppliedGas : N) (r : result) : Prop :=
  remainingGas r
  = (if (suppliedGas <? gasCost h)%N then 0 else suppliedGas - gasCost h)%N /\
  (err r = Some ErrOutOfGas <-> (suppliedGas < gasCost h)%N) /\
  (err r <> None -> state r = stateDB /\ ret r = []).

End Precompiles.

(** ** A concrete instance, for the examples

    Values in the style of the deployed network: any others would do. *)

Definition addr_of_N (v : N) : common.Address :=
  be_bytes common.AddressLength v.

Definition exampleParams : Params := {|
  ContractNativeMinterAddress := addr_of_N 0x0200000000000000000000000000000000000001;
  FeeConfigManagerAddress := addr_of_N 0x0200000000000000000000000000000000000003;
  ContractXchainECRecoverAddress := addr_of_N 0x0200000000000000000000000000000000000004;
  MintGasCost := 30000;
  SetFeeConfigGasCost := 160000;
  ReadAllowListGasCost := 5000;
  ModifyAllowListGasCost := 20000;
  mintSignature := (x4f, x5a, xaa, xba);
  setFeeConfigSignature := (x8f, x10, xb5, x86);
|}.

Section Scenarios.
#[local] Existing Instance exampleParams.

(** Accounts of the scenarios. *)
Definition alice : common.Address := addr_of_N 0xA11CE.
Definition bob : common.Address := addr_of_N 0xB0B.
Definition carol : common.Address := addr_of_N 0xCA401.
Definition dave : common.Address := addr_of_N 0xDA7E.

(** A state in which [alice] is Admin of both precompiles and nothing else
    has been written. *)
Definition seededState : StateDB :=
  setAllowListRole
    (setAllowListRole ∅ ContractNativeMinterAddress alice AllowListAdmin)
    FeeConfigManagerAddress alice AllowListAdmin.

(** The fee configuration of scenario A. *)
Definition scenarioConfig : FeeConfig :=
  mkFeeConfig (Some 21000000) (Some 2) (Some 25000000000) (Some 15000000)
    (Some 36) (Some 0) (Some 10000000) (Some 100000).

Definition zeroConfig : FeeConfig :=
  mkFeeConfig (Some 0) (Some 0) (Some 0) (Some 0) (Some 0) (Some 0) (Some 0)
    (Some 0).

Definition maxUint256 : Z := 2 ^ 256 - 1.

Definition maxConfig : FeeConfig :=
  mkFeeConfig (Some maxUint256) (Some maxUint256) (Some maxUint256)
    (Some maxUint256) (Some maxUint256) (Some maxUint256) (Some maxUint256)
    (Some maxUint256).

(** The body of a mint call: two 32-byte words, the first with [high] in
    its 12 high bytes and the address in its 20 low bytes. *)
Definition mintBody (high : N) (to : common.Address) (amount : N)
  : list byte :=
  be_bytes 12 high ++ to ++ be_bytes 32 amount.

End Scenarios.

(** * Properties *)

(** ** Big-endian encoding *)

Lemma to_N_byte_of_N (n : N) : Byte.to_N (byte_of_N n) = (n mod 256)%N.
Proof.
  unfold byte_of_N.
  destruct (Byte.of_N (n mod 256)%N) as [b|] eqn:E.
  - by apply Byte.to_of_N.
  - apply Byte.of_N_None_iff in E.
    pose proof (N.mod_upper_bound n 256). lia.
Qed.

Lemma byte_of_N_to_N (b : byte) : byte_of_N (Byte.to_N b) = b.
Proof.
  unfold byte_of_N.
  pose proof (Byte.to_N_bounded b).
  rewrite N.mod_small by lia.
  by rewrite Byte.of_to_N.
Qed.

Lemma byte_of_N_mod (n : N) : byte_of_N (n mod 256)%N = byte_of_N n.
Proof. unfold byte_of_N. by rewrite N.Div0.mod_mod. Qed.

Lemma length_be_bytes (n : nat) (v : N) : length (be_bytes n v) = n.
Proof.
  revert v. induction n as [|n IH]; intros v; simpl; [done|].
  rewrite length_app, IH. simpl. lia.
Qed.

Lemma from_be_snoc (l : list byte) (b : byte) :
  from_be (l ++ [b]) = (from_be l * 256 + Byte.to_N b)%N.
Proof. unfold from_be. by rewrite fold_left_app. Qed.

Lemma from_be_app (l1 l2 : list byte) :
  from_be (l1 ++ l2)
  = (from_be l1 * 256 ^ N.of_nat (length l2) + from_be l2)%N.
Proof.
  induction l2 as [|b l2 IH] using rev_ind.
  - rewrite app_nil_r. simpl. unfold from_be at 3. simpl. lia.
  - rewrite app_assoc, !from_be_snoc, IH, length_app. simpl.
    replace (N.of_nat (length l2 + 1)) with (N.succ (N.of_nat (length l2)))
      by lia.
    rewrite N.pow_succ_r'. lia.
Qed.

Lemma from_be_bound (l : list byte) :
  (from_be l < 256 ^ N.of_nat (length l))%N.
Proof.
  induction l as [|b l IH] using rev_ind.
  - unfold from_be. simpl. lia.
  - rewrite from_be_snoc, length_app. simpl.
    replace (N.of_nat (length l + 1)) with (N.succ (N.of_nat (length l)))
      by lia.
    rewrite N.pow_succ_r'.
    pose proof (Byte.to_N_bounded b). lia.
Qed.

Lemma from_be_be_bytes (n : nat) (v : N) :
  from_be (be_bytes n v) = (v mod 256 ^ N.of_nat n)%N.
Proof.
  revert v. induction n as [|n IH]; intros v.
  - simpl. unfold from_be. simpl. by rewrite N.mod_1_r.
  - simpl be_bytes. rewrite from_be_snoc, IH, to_N_byte_of_N.
    replace (N.of_nat (S n)) with (N.succ (N.of_nat n)) by lia.
    rewrite N.pow_succ_r'.
    rewrite (N.Div0.mod_mul_r v 256 (256 ^ N.of_nat n)). lia.
Qed.

Lemma be_bytes_from_be (l : list byte) :
  be_bytes (length l) (from_be l) = l.
Proof.
  induction l as [|b l IH] using rev_ind; [done|].
  rewrite length_app. simpl length.
  replace (length l + 1)%nat with (S (length l)) by lia.
  simpl be_bytes. rewrite from_be_snoc.
  pose proof (Byte.to_N_bounded b).
  replace ((from_be l * 256 + Byte.to_N b) / 256)%N with (from_be l).
  - rewrite IH. f_equal. f_equal.
    rewrite <- byte_of_N_mod.
    replace ((from_be l * 256 + Byte.to_N b) mod 256)%N with (Byte.to_N b).
    + apply byte_of_N_to_N.
    + rewrite N.add_comm, N.Div0.mod_add. rewrite N.mod_small; lia.
  - rewrite N.add_comm, N.div_add by lia. rewrite N.div_small; lia.
Qed.

Lemma from_be_zeros (n : nat) : from_be (zeros n) = 0%N.
Proof.
  induction n as [|n IH]; [done|].
  unfold zeros in *. simpl. unfold from_be in *. simpl. exact IH.
Qed.

Lemma from_be_zeros_app (n : nat) (l : list byte) :
  from_be (zeros n ++ l) = from_be l.
Proof. rewrite from_be_app, from_be_zeros. lia. Qed.

Lemma from_be_drop (k : nat) (l : list byte) :
  from_be (drop k l) = (from_be l mod 256 ^ N.of_nat (length l - k))%N.
Proof.
  rewrite <- (take_drop k l) at 2.
  rewrite from_be_app, length_drop.
  rewrite N.add_comm, N.Div0.mod_add.
  symmetry. apply N.mod_small.
  rewrite <- (length_drop l k). apply from_be_bound.
Qed.

Lemma byte_len_fits (v : N) : (v < 256 ^ N.of_nat (byte_len v))%N.
Proof.
  unfold byte_len. rewrite N2Nat.id.
  change 256%N with (2 ^ 8)%N. rewrite <- N.pow_mul_r.
  eapply N.lt_le_trans; [apply N.size_gt|].
  apply N.pow_le_mono_r; [lia|].
  pose proof (N.Div0.div_mod (N.size v + 7) 8).
  pose proof (N.mod_upper_bound (N.size v + 7) 8). lia.
Qed.

Lemma byte_len_le (n : nat) (v : N) :
  (v < 256 ^ N.of_nat n)%N -> (byte_len v <= n)%nat.
Proof.
  intros Hv. unfold byte_len.
  destruct (N.eq_dec v 0%N) as [->|Hnz]; [vm_compute; lia|].
  assert (N.size v <= 8 * N.of_nat n)%N as Hs.
  { rewrite N.size_log2 by done.
    apply N.le_succ_l. apply N.log2_lt_pow2; [lia|].
    rewrite N.pow_mul_r. exact Hv. }
  assert ((N.size v + 7) / 8 <= N.of_nat n)%N as Hd.
  { assert (N.size v + 7 < 8 * (N.of_nat n + 1))%N as Hlt by lia.
    pose proof (N.Div0.div_lt_upper_bound _ _ _ Hlt). lia. }
  set (q := ((N.size v + 7) / 8)%N) in *. lia.
Qed.

Lemma right_align_long (n : nat) (b : list byte) :
  (n <= length b)%nat -> right_align n b = drop (length b - n) b.
Proof.
  intros Hn. unfold right_align.
  destruct (n <? length b)%nat eqn:E.
  - rewrite length_drop.
    replace (n - (length b - (length b - n)))%nat with 0%nat by lia. done.
  - apply Nat.ltb_ge in E.
    replace (length b - n)%nat with 0%nat by lia.
    replace (n - length b)%nat with 0%nat by lia. done.
Qed.

Lemma right_align_short (n : nat) (b : list byte) :
  (length b <= n)%nat -> right_align n b = zeros (n - length b) ++ b.
Proof.
  intros Hn. unfold right_align.
  destruct (n <? length b)%nat eqn:E; [|done].
  apply Nat.ltb_lt in E. lia.
Qed.

Lemma length_right_align (n : nat) (b : list byte) :
  length (right_align n b) = n.
Proof.
  destruct (Nat.le_ge_cases n (length b)) as [Hle|Hge].
  - rewrite right_align_long, length_drop by done. lia.
  - rewrite right_align_short, length_app by done.
    unfold zeros. rewrite length_replicate. lia.
Qed.

Lemma from_be_right_align (n : nat) (b : list byte) :
  from_be (right_align n b) = (from_be b mod 256 ^ N.of_nat n)%N.
Proof.
  destruct (Nat.le_ge_cases n (length b)) as [Hle|Hge].
  - rewrite right_align_long, from_be_drop by done.
    do 2 f_equal. lia.
  - rewrite right_align_short, from_be_zeros_app by done.
    symmetry. apply N.mod_small.
    eapply N.lt_le_trans; [apply from_be_bound|].
    apply N.pow_le_mono_r; lia.
Qed.

(** Reading a 32-byte encoding back gives the number, when it fits. *)
Lemma SetBytes_be_bytes (n : nat) (z : Z) :
  0 <= z < 256 ^ Z.of_nat n ->
  big.SetBytes (be_bytes n (Z.abs_N z)) = Some z.
Proof.
  intros [Hz0 Hz1]. unfold big.SetBytes. f_equal.
  rewrite from_be_be_bytes.
  rewrite N.mod_small; [rewrite N2Z.inj_abs_N; lia|].
  apply N2Z.inj_lt. rewrite N2Z.inj_abs_N, N2Z.inj_pow, nat_N_Z.
  simpl. lia.
Qed.

Lemma FillBytes_fits (n : nat) (z : Z) :
  0 <= z < 256 ^ Z.of_nat n ->
  big.FillBytes (Some z) n = Returns (be_bytes n (Z.abs_N z)).
Proof.
  intros [Hz0 Hz1]. unfold big.FillBytes.
  assert (byte_len (Z.abs_N z) <= n)%nat as Hfit.
  { apply byte_len_le. apply N2Z.inj_lt.
    rewrite N2Z.inj_abs_N, N2Z.inj_pow, nat_N_Z. simpl. lia. }
  destruct (n <? byte_len (Z.abs_N z))%nat eqn:E; [|done].
  apply Nat.ltb_lt in E. lia.
Qed.

(** A stored 256-bit value is read back unchanged. *)
Lemma Hash_Big_BigToHash (z : Z) :
  0 <= z < 2 ^ 256 ->
  exists h, common.BigToHash (Some z) = Returns h /\
            length h = 32%nat /\
            common.Hash_Big h = Some z.
Proof.
  intros [Hz0 Hz1]. eexists. split; [reflexivity|]. split.
  - apply length_right_align.
  - unfold common.Hash_Big, big.SetBytes, common.BytesToHash. f_equal.
    rewrite from_be_right_align, from_be_be_bytes.
    rewrite (N.mod_small _ (256 ^ N.of_nat (byte_len (Z.abs_N z))))
      by apply byte_len_fits.
    rewrite N.mod_small; [rewrite N2Z.inj_abs_N; lia|].
    apply N2Z.inj_lt. rewrite N2Z.inj_abs_N.
    change (Z.of_N (256 ^ N.of_nat common.HashLength)) with (2 ^ 256). lia.
Qed.

Section PrecompileProperties.
Context `{Params}.

(** ** Decoding the arguments of mint *)

Lemma UnpackMintInput_ok (input : list byte) :
  length input = 64%nat ->
  UnpackMintInput input
  = (take 20 (drop 12 input), big.SetBytes (drop 32 input), None).
Proof.
  intros Hlen. unfold UnpackMintInput, mintInputLen, common.HashLength.
  rewrite Hlen. simpl negb. cbv iota.
  unfold returnPackedElement, common.BytesToAddress, common.HashLength,
    common.AddressLength.
  change (32 * 0)%nat with 0%nat. change (32 * 1)%nat with 32%nat.
  rewrite drop_0.
  assert (length (take 32 input) = 32%nat) as Hword
    by (rewrite length_take; lia).
  f_equal. f_equal.
  - rewrite right_align_long, Hword by lia.
    change (32 - 20)%nat with 12%nat.
    change 32%nat with (12 + 20)%nat.
    by rewrite <- take_drop_commute.
  - f_equal. apply take_ge. rewrite length_drop. lia.
Qed.

Lemma UnpackMintInput_bad_length (input : list byte) :
  length input <> 64%nat ->
  UnpackMintInput input
  = (common.zeroAddress, None,
     Some (ErrInvalidMintInputLength (length input))).
Proof.
  intros Hlen. unfold UnpackMintInput, mintInputLen, common.HashLength.
  destruct (length input =? 32 + 32)%nat eqn:E; [|done].
  apply Nat.eqb_eq in E. simpl in E. lia.
Qed.

Lemma UnpackFeeConfigInput_bad_length (input : list byte) :
  length input <> 256%nat ->
  UnpackFeeConfigInput input
  = (FeeConfig_zero, Some (ErrInvalidFeeConfigInputLength (length input))).
Proof.
  intros Hlen. unfold UnpackFeeConfigInput.
  destruct (length input =? feeConfigInputLen)%nat eqn:E; [|done].
  apply Nat.eqb_eq in E. change feeConfigInputLen with 256%nat in E. lia.
Qed.

Lemma UnpackFeeConfigInput_ok (input : list byte) :
  length input = 256%nat ->
  snd (UnpackFeeConfigInput input) = None.
Proof.
  intros Hlen. unfold UnpackFeeConfigInput.
  change feeConfigInputLen with 256%nat. by rewrite Hlen.
Qed.

(** C7. [UnpackMintInput] fails with an invalid-input-length error, and
    returns the zero address and a nil amount, on every input whose length
    is not 64; [UnpackFeeConfigInput] fails likewise, returning the zero
    struct, on every input whose length is not 256; on an input of exactly
    the required length neither returns an error. *)
Theorem Unpack_invalid_length_iff (input : list byte) :
  (length input <> 64%nat ->
     exists e, UnpackMintInput input = (common.zeroAddress, None, Some e) /\
               kind_of e = InvalidInputLength) /\
  (length input = 64%nat -> snd (UnpackMintInput input) = None) /\
  (length input <> 256%nat ->
     exists e, UnpackFeeConfigInput input = (FeeConfig_zero, Some e) /\
               kind_of e = InvalidInputLength) /\
  (length input = 256%nat -> snd (UnpackFeeConfigInput input) = None).
Proof.
  repeat split.
  - intros Hlen. eexists. split; [by apply UnpackMintInput_bad_length|done].
  - intros Hlen. by rewrite UnpackMintInput_ok.
  - intros Hlen. eexists.
    split; [by apply UnpackFeeConfigInput_bad_length|done].
  - apply UnpackFeeConfigInput_ok.
Qed.

(** C10. On every 64-byte input [UnpackMintInput] succeeds and the address
    it returns is made of bytes 12..31 of the input, the low 20 bytes of
    the first word; the high 12 bytes are not looked at, so two 64-byte
    inputs that agree from byte 12 on decode to the same pair. *)
Theorem UnpackMintInput_drops_high_bytes (input input' : list byte) :
  length input = 64%nat ->
  length input' = 64%nat ->
  drop 12 input' = drop 12 input ->
  UnpackMintInput input
  = (take 20 (drop 12 input), big.SetBytes (drop 32 input), None) /\
  UnpackMintInput input' = UnpackMintInput input.
Proof.
  intros Hlen Hlen' Heq. split; [by apply UnpackMintInput_ok|].
  rewrite !UnpackMintInput_ok by done.
  rewrite Heq. do 2 f_equal.
  change 32%nat with (12 + 20)%nat. by rewrite <- !drop_drop, Heq.
Qed.

(** C2. For a 20-byte address and an amount below 2^256, [PackMintInput]
    returns without error, and [UnpackMintInput] applied to what it
    returns, less the 4-byte selector, gives the address and the amount
    back without error. *)
Theorem UnpackMintInput_PackMintInput (to : common.Address) (amount : Z) :
  length to = 20%nat ->
  0 <= amount < 2 ^ 256 ->
  exists packed,
    PackMintInput to (Some amount) = Returns (packed, None) /\
    UnpackMintInput (drop selectorLen packed) = (to, Some amount, None).
Proof.
  intros Hto Hamount.
  unfold PackMintInput. rewrite FillBytes_fits by (simpl; lia).
  cbn [obind]. unfold inputPackOrdered.
  set (body := common.Address_Hash to ++ be_bytes 32 (Z.abs_N amount)).
  assert (concat [selector_bytes mintSignature; common.Address_Hash to;
                  be_bytes 32 (Z.abs_N amount)]
          = selector_bytes mintSignature ++ body) as ->.
  { unfold body. cbn [concat]. by rewrite app_nil_r. }
  assert (length (selector_bytes mintSignature) = 4%nat) as Hsel.
  { by destruct mintSignature as [[[a b] c] d]. }
  assert (common.Address_Hash to = zeros 12 ++ to) as Hhash.
  { unfold common.Address_Hash, common.BytesToHash, common.HashLength.
    rewrite right_align_short by lia. by rewrite Hto. }
  assert (length body = 64%nat) as Hbody.
  { unfold body. rewrite length_app, length_be_bytes, Hhash, length_app.
    unfold zeros. rewrite length_replicate. lia. }
  rewrite length_app, Hsel, Hbody. simpl Nat.eqb. cbv iota.
  eexists. split; [reflexivity|].
  rewrite drop_app_length' by done.
  rewrite UnpackMintInput_ok by done.
  unfold body. rewrite Hhash. f_equal. f_equal.
  - rewrite <- app_assoc, drop_app_length'
      by (unfold zeros; by rewrite length_replicate).
    by rewrite take_app_length'.
  - rewrite drop_app_length'
      by (rewrite length_app; unfold zeros; rewrite length_replicate; lia).
    apply SetBytes_be_bytes. simpl. lia.
Qed.

(** ** Gas, read-only and permission checks *)

Lemma deductGas_short (suppliedGas requiredGas : N) :
  (suppliedGas < requiredGas)%N ->
  deductGas suppliedGas requiredGas = (0%N, Some ErrOutOfGas).
Proof.
  intros Hlt. unfold deductGas.
  by destruct (N.ltb_spec suppliedGas requiredGas); [|lia].
Qed.

Lemma deductGas_enough (suppliedGas requiredGas : N) :
  (requiredGas <= suppliedGas)%N ->
  deductGas suppliedGas requiredGas
  = ((suppliedGas - requiredGas)%N, None).
Proof.
  intros Hle. unfold deductGas.
  by destruct (N.ltb_spec suppliedGas requiredGas); [lia|].
Qed.

(** C4. Whatever the handler, the state, the caller, the input and the
    read-only flag: with a gas budget strictly below the handler's fixed
    cost the handler returns no output, zero remaining gas and the
    out-of-gas error, and the state is the one it was given. *)
Theorem run_out_of_gas (h : handler) (stateDB : StateDB)
    (caller addr : common.Address) (input : list byte) (suppliedGas : N)
    (readOnly : bool) :
  (suppliedGas < gasCost h)%N ->
  run h stateDB caller addr input suppliedGas readOnly
  = Returns {| ret := []; remainingGas := 0; err := Some ErrOutOfGas;
               state := stateDB |}
  /\ kind_of ErrOutOfGas = OutOfGas.
Proof.
  intros Hgas. split; [|done].
  destruct h; simpl in Hgas; unfold run;
    [ unfold createMintNativeCoin
    | unfold createSetFeeConfig
    | unfold createAllowListRoleSetter
    | unfold createReadAllowList
    | unfold createXChainECRecover
    | unfold getXChainECRecover ];
    by rewrite deductGas_short.
Qed.

(** C5. With a sufficient gas budget and the read-only flag set, the mint
    handler and the setFeeConfig handler fail with the write-protection
    error on every input and for every caller; the state is untouched and
    the remaining gas is the budget less the handler's fixed cost. *)
Theorem write_handlers_readOnly (stateDB : StateDB)
    (caller addr : common.Address) (input : list byte) (suppliedGas : N) :
  ((MintGasCost <= suppliedGas)%N ->
   createMintNativeCoin stateDB caller addr input suppliedGas true
   = Returns {| ret := []; remainingGas := suppliedGas - MintGasCost;
                err := Some ErrWriteProtection; state := stateDB |}) /\
  ((SetFeeConfigGasCost <= suppliedGas)%N ->
   createSetFeeConfig stateDB caller addr input suppliedGas true
   = Returns {| ret := []; remainingGas := suppliedGas - SetFeeConfigGasCost;
                err := Some ErrWriteProtection; state := stateDB |}) /\
  kind_of ErrWriteProtection = WriteProtection.
Proof.
  repeat split; intros Hgas.
  - unfold createMintNativeCoin. by rewrite deductGas_enough.
  - unfold createSetFeeConfig. by rewrite deductGas_enough.
Qed.

(** C6. A caller that is not enabled on the contract gets the
    permission-denied error from a well-formed mint, respectively
    setFeeConfig, call made with enough gas and the read-only flag unset;
    the state after the call is the state before it, so no balance and no
    stored fee configuration has changed. *)
Theorem write_handlers_not_enabled (stateDB : StateDB)
    (caller addr : common.Address) (input : list byte) (suppliedGas : N) :
  ((MintGasCost <= suppliedGas)%N ->
   length input = 64%nat ->
   IsEnabled (getAllowListStatus stateDB ContractNativeMinterAddress caller)
   = false ->
   createMintNativeCoin stateDB caller addr input suppliedGas false
   = Returns {| ret := []; remainingGas := suppliedGas - MintGasCost;
                err := Some (ErrCannotMint caller); state := stateDB |}
   /\ kind_of (ErrCannotMint caller) = PermissionDenied) /\
  ((SetFeeConfigGasCost <= suppliedGas)%N ->
   length input = 256%nat ->
   IsEnabled (getAllowListStatus stateDB FeeConfigManagerAddress caller)
   = false ->
   createSetFeeConfig stateDB caller addr input suppliedGas false
   = Returns {| ret := []; remainingGas := suppliedGas - SetFeeConfigGasCost;
                err := Some (ErrCannotChangeFee caller); state := stateDB |}
   /\ kind_of (ErrCannotChangeFee caller) = PermissionDenied).
Proof.
  split; intros Hgas Hlen Hrole; (split; [|done]).
  - unfold createMintNativeCoin.
    rewrite deductGas_enough, UnpackMintInput_ok by done.
    by rewrite Hrole.
  - unfold createSetFeeConfig. rewrite deductGas_enough by done.
    unfold UnpackFeeConfigInput. change feeConfigInputLen with 256%nat.
    rewrite Hlen. simpl negb. cbv iota. by rewrite Hrole.
Qed.

(** A role that does not satisfy [IsEnabled] is the role None. *)
Lemma not_IsEnabled_NoRole (r : AllowListRole) :
  IsEnabled r = false <-> r = AllowListNoRole.
Proof. by destruct r. Qed.

(** ** The xChainECRecover stub *)

(** C9, as amended. With enough gas, [createXChainECRecover] called with
    the read-only flag unset, and [getXChainECRecover] called with either
    flag, return their input as output, the budget less the fixed cost and
    no error, and leave the state as it was; [createXChainECRecover] called
    with the read-only flag set fails with the write-protection error and
    returns no output. *)
Theorem xChainECRecover_echo (stateDB : StateDB)
    (caller addr precompileAddr : common.Address) (input : list byte)
    (suppliedGas : N) (readOnly : bool) :
  ((MintGasCost <= suppliedGas)%N ->
   createXChainECRecover stateDB caller addr input suppliedGas readOnly
   = Returns (if readOnly
              then {| ret := []; remainingGas := suppliedGas - MintGasCost;
                      err := Some ErrWriteProtection; state := stateDB |}
              else {| ret := input; remainingGas := suppliedGas - MintGasCost;
                      err := None; state := stateDB |})) /\
  ((ReadAllowListGasCost <= suppliedGas)%N ->
   getXChainECRecover precompileAddr stateDB caller addr input suppliedGas
     readOnly
   = Returns {| ret := input;
                remainingGas := suppliedGas - ReadAllowListGasCost;
                err := None; state := stateDB |}).
Proof.
  split; intros Hgas.
  - unfold createXChainECRecover. rewrite deductGas_enough by done.
    by destruct readOnly.
  - unfold getXChainECRecover. by rewrite deductGas_enough.
Qed.

(** ** The state database *)

Lemma Exist_true (s : StateDB) (a : common.Address) :
  Exist s a = true <-> is_Some (s !! a).
Proof. unfold Exist. apply bool_decide_eq_true. Qed.

Lemma Exist_false (s : StateDB) (a : common.Address) :
  Exist s a = false <-> s !! a = None.
Proof.
  unfold Exist. rewrite bool_decide_eq_false.
  by rewrite eq_None_not_Some.
Qed.

Lemma Exist_SetState (s : StateDB) (a : common.Address)
    (k v : common.Hash) :
  Exist (SetState s a k v) a = true.
Proof.
  apply Exist_true. unfold SetState. rewrite lookup_insert_eq. eauto.
Qed.

Lemma GetState_SetState_eq (s : StateDB) (a : common.Address)
    (k v : common.Hash) :
  GetState (SetState s a k v) a k = v.
Proof.
  unfold GetState, SetState. rewrite lookup_insert_eq. simpl.
  by rewrite lookup_insert_eq.
Qed.

Lemma GetState_SetState_ne (s : StateDB) (a : common.Address)
    (k k' v : common.Hash) :
  k <> k' ->
  GetState (SetState s a k v) a k' = GetState s a k'.
Proof.
  intros Hne. unfold GetState, SetState, getOrNewStateObject.
  rewrite lookup_insert_eq. simpl. rewrite lookup_insert_ne by done.
  by destruct (s !! a).
Qed.

(** ** Minting *)

(** C3. A mint call with the read-only flag unset, at least [MintGasCost]
    gas, a 64-byte body and an enabled caller returns empty output, no
    error and the budget less [MintGasCost].  The state it leaves is the
    one obtained by creating the account of [to] when it does not exist and
    then adding [amount] to its balance: the account exists afterwards, its
    balance has grown by exactly [amount] (and is [amount] when there was
    no account), and no other account has changed. *)
Theorem createMintNativeCoin_mints (stateDB : StateDB)
    (caller addr : common.Address) (input : list byte) (suppliedGas : N) :
  (MintGasCost <= suppliedGas)%N ->
  length input = 64%nat ->
  IsEnabled (getAllowListStatus stateDB ContractNativeMinterAddress caller)
  = true ->
  exists (to : common.Address) (amount : Z) (stateDB' : StateDB),
    UnpackMintInput input = (to, Some amount, None) /\
    0 <= amount < 2 ^ 256 /\
    createMintNativeCoin stateDB caller addr input suppliedGas false
    = Returns {| ret := []; remainingGas := suppliedGas - MintGasCost;
                 err := None; state := stateDB' |} /\
    AddBalance (if Exist stateDB to then stateDB
                else CreateAccount stateDB to) to (Some amount)
    = Returns stateDB' /\
    Exist stateDB' to = true /\
    GetBalance stateDB' to = GetBalance stateDB to + amount /\
    (Exist stateDB to = false -> GetBalance stateDB' to = amount) /\
    (forall a : common.Address, a <> to -> stateDB' !! a = stateDB !! a).
Proof.
  intros Hgas Hlen Hrole.
  exists (take 20 (drop 12 input)), (Z.of_N (from_be (drop 32 input))).
  set (to := take 20 (drop 12 input)).
  set (amount := Z.of_N (from_be (drop 32 input))).
  pose proof (UnpackMintInput_ok input Hlen) as Hunpack.
  fold to in Hunpack. unfold big.SetBytes in Hunpack. fold amount in Hunpack.
  assert (0 <= amount < 2 ^ 256) as Hamount.
  { unfold amount. split; [lia|].
    pose proof (from_be_bound (drop 32 input)) as Hb.
    rewrite length_drop, Hlen in Hb.
    apply N2Z.inj_lt in Hb.
    change (Z.of_N (256 ^ N.of_nat (64 - 32))) with (2 ^ 256) in Hb.
    exact Hb. }
  unfold createMintNativeCoin.
  rewrite deductGas_enough, Hunpack, Hrole by done.
  simpl negb. cbv iota.
  destruct (Exist stateDB to) eqn:Hex; simpl negb; cbv iota;
    cbn [AddBalance obind]; eexists;
    (split; [done|]); (split; [done|]); (split; [reflexivity|]);
    (split; [reflexivity|]).
  - apply Exist_true in Hex as [o Ho].
    split; [apply Exist_true; rewrite lookup_insert_eq; eauto|].
    split; [|split; [done|]].
    + unfold GetBalance, getOrNewStateObject.
      by rewrite lookup_insert_eq, Ho.
    + intros a Ha. by rewrite lookup_insert_ne.
  - apply Exist_false in Hex.
    split; [apply Exist_true; rewrite lookup_insert_eq; eauto|].
    assert (GetBalance
              (<[to := {| balance :=
                            balance (getOrNewStateObject
                                       (CreateAccount stateDB to) to)
                            + amount;
                          storage :=
                            storage (getOrNewStateObject
                                       (CreateAccount stateDB to) to) |}]>
                 (CreateAccount stateDB to)) to = amount) as Hbal.
    { unfold GetBalance, CreateAccount, getOrNewStateObject.
      rewrite !lookup_insert_eq. simpl. rewrite Hex. simpl. lia. }
    split; [|split; [done|]].
    + etrans; [exact Hbal|]. unfold GetBalance. rewrite Hex. lia.
    + intros a Ha. unfold CreateAccount.
      by rewrite !lookup_insert_ne.
Qed.

(** ** Reading and writing the fee configuration *)

Lemma GetFeeConfig_exists (stateDB : StateDB) :
  Exist stateDB FeeConfigManagerAddress = true ->
  GetFeeConfig stateDB = Returns (storedFeeConfig stateDB, None).
Proof. intros Hex. unfold GetFeeConfig. by rewrite Hex. Qed.

(** C8. When the account of the fee config manager does not exist,
    [GetFeeConfig] returns the zero struct [FeeConfig{}], whose fields are
    all unset, and no error; when it exists, it returns without error the
    struct whose eight fields are the values of the slots [Hash{0}] to
    [Hash{7}], in the order of the field keys. *)
Theorem GetFeeConfig_cases (stateDB : StateDB) :
  (Exist stateDB FeeConfigManagerAddress = false ->
   GetFeeConfig stateDB = Returns (FeeConfig_zero, None)) /\
  (Exist stateDB FeeConfigManagerAddress = true ->
   GetFeeConfig stateDB
   = Returns
       ({| GasLimit :=
             common.Hash_Big (GetState stateDB FeeConfigManagerAddress (fieldSlot 0));
           TargetBlockRate :=
             common.Hash_Big (GetState stateDB FeeConfigManagerAddress (fieldSlot 1));
           MinBaseFee :=
             common.Hash_Big (GetState stateDB FeeConfigManagerAddress (fieldSlot 2));
           TargetGas :=
             common.Hash_Big (GetState stateDB FeeConfigManagerAddress (fieldSlot 3));
           BaseFeeChangeDenominator :=
             common.Hash_Big (GetState stateDB FeeConfigManagerAddress (fieldSlot 4));
           MinBlockGasCost :=
             common.Hash_Big (GetState stateDB FeeConfigManagerAddress (fieldSlot 5));
           MaxBlockGasCost :=
             common.Hash_Big (GetState stateDB FeeConfigManagerAddress (fieldSlot 6));
           BlockGasCostStep :=
             common.Hash_Big (GetState stateDB FeeConfigManagerAddress (fieldSlot 7)) |},
        None)).
Proof.
  split; intros Hex.
  - unfold GetFeeConfig. by rewrite Hex.
  - by rewrite GetFeeConfig_exists.
Qed.

Lemma fieldSlot_ne (i j : nat) :
  (i < 256)%nat -> (j < 256)%nat -> i <> j -> fieldSlot i <> fieldSlot j.
Proof.
  intros Hi Hj Hne Heq. unfold fieldSlot, common.Hash_lit in Heq.
  injection Heq as Hb.
  apply (f_equal Byte.to_N) in Hb.
  rewrite !to_N_byte_of_N, !N.mod_small in Hb by lia. lia.
Qed.

Lemma Hash_Big_hashOfBig (z : Z) :
  0 <= z < 2 ^ 256 -> common.Hash_Big (common.hashOfBig z) = Some z.
Proof.
  intros Hz. destruct (Hash_Big_BigToHash z Hz) as (h & Hh & _ & Hbig).
  cbn in Hh. by injection Hh as <-.
Qed.

Lemma setFeeConfig_stores (stateDB : StateDB) (v0 v1 v2 v3 v4 v5 v6 v7 : Z) :
  setFeeConfig stateDB
    (mkFeeConfig (Some v0) (Some v1) (Some v2) (Some v3) (Some v4) (Some v5)
       (Some v6) (Some v7))
  = Returns (storeFields stateDB (common.hashOfBig <$>
                                    [v0; v1; v2; v3; v4; v5; v6; v7]),
             None).
Proof. reflexivity. Qed.

Ltac read_slot :=
  rewrite ?GetState_SetState_ne by (apply fieldSlot_ne; lia);
  rewrite GetState_SetState_eq.

Lemma storedFeeConfig_storeFields (stateDB : StateDB)
    (h0 h1 h2 h3 h4 h5 h6 h7 : common.Hash) :
  storedFeeConfig (storeFields stateDB [h0; h1; h2; h3; h4; h5; h6; h7])
  = mkFeeConfig (common.Hash_Big h0) (common.Hash_Big h1)
      (common.Hash_Big h2) (common.Hash_Big h3) (common.Hash_Big h4)
      (common.Hash_Big h5) (common.Hash_Big h6) (common.Hash_Big h7).
Proof.
  unfold storedFeeConfig, storeFields. cbn [fieldKeys zip zip_with foldl seq
    minKey maxKey gasLimitKey blockGasCostStepKey Nat.sub Nat.add].
  unfold gasLimitKey, targetBlockRateKey, minBaseFeeKey, targetGasKey,
    baseFeeChangeDenominatorKey, minBlockGasCostKey, maxBlockGasCostKey,
    blockGasCostStepKey.
  change minKey with 0%nat.
  f_equal; f_equal; by read_slot.
Qed.

Lemma Exist_storeFields (stateDB : StateDB)
    (h0 h1 h2 h3 h4 h5 h6 h7 : common.Hash) :
  Exist (storeFields stateDB [h0; h1; h2; h3; h4; h5; h6; h7])
    FeeConfigManagerAddress = true.
Proof. apply Exist_SetState. Qed.

(** Writing a configuration of unsigned 256-bit fields and reading it back
    gives the configuration. *)
Lemma GetFeeConfig_setFeeConfig (stateDB : StateDB) (cfg : FeeConfig) :
  FeeConfig_uint256 cfg ->
  exists stateDB',
    setFeeConfig stateDB cfg = Returns (stateDB', None) /\
    GetFeeConfig stateDB' = Returns (cfg, None).
Proof.
  destruct cfg as [f0 f1 f2 f3 f4 f5 f6 f7].
  unfold FeeConfig_uint256, uint256. cbn [GasLimit TargetBlockRate MinBaseFee
    TargetGas BaseFeeChangeDenominator MinBlockGasCost MaxBlockGasCost
    BlockGasCostStep].
  intros ((v0 & -> & H0) & (v1 & -> & H1) & (v2 & -> & H2) & (v3 & -> & H3) &
          (v4 & -> & H4) & (v5 & -> & H5) & (v6 & -> & H6) & (v7 & -> & H7)).
  eexists. split; [apply setFeeConfig_stores|].
  cbn [fmap list_fmap].
  rewrite GetFeeConfig_exists by apply Exist_storeFields.
  rewrite storedFeeConfig_storeFields.
  by rewrite !Hash_Big_hashOfBig.
Qed.

Lemma returnPackedElement_0 (w rest : list byte) :
  length w = 32%nat -> returnPackedElement (w ++ rest) 0 = w.
Proof.
  intros Hw. unfold returnPackedElement, common.HashLength.
  change (32 * 0)%nat with 0%nat. rewrite drop_0.
  by apply take_app_length'.
Qed.

Lemma returnPackedElement_S (w rest : list byte) (i : nat) :
  length w = 32%nat ->
  returnPackedElement (w ++ rest) (S i) = returnPackedElement rest i.
Proof.
  intros Hw. unfold returnPackedElement, common.HashLength.
  replace (32 * S i)%nat with (32 + 32 * i)%nat by lia.
  by rewrite drop_app_add'.
Qed.

Lemma SetBytes_uint256 (b : list byte) :
  (length b <= 32)%nat -> uint256 (big.SetBytes b).
Proof.
  intros Hb. eexists. split; [reflexivity|]. split; [lia|].
  pose proof (from_be_bound b) as Hlt.
  apply N2Z.inj_lt in Hlt. rewrite N2Z.inj_pow, nat_N_Z in Hlt.
  eapply Z.lt_le_trans; [exact Hlt|].
  change (2 ^ 256) with (Z.of_N 256 ^ 32).
  apply Z.pow_le_mono_r; lia.
Qed.

Lemma UnpackFeeConfigInput_uint256 (input : list byte) :
  length input = 256%nat ->
  exists cfg,
    UnpackFeeConfigInput input = (cfg, None) /\ FeeConfig_uint256 cfg.
Proof.
  intros Hlen. unfold UnpackFeeConfigInput.
  change feeConfigInputLen with 256%nat. rewrite Hlen.
  simpl negb. cbv iota. eexists. split; [reflexivity|].
  unfold FeeConfig_uint256. cbn [GasLimit TargetBlockRate MinBaseFee
    TargetGas BaseFeeChangeDenominator MinBlockGasCost MaxBlockGasCost
    BlockGasCostStep].
  repeat split; apply SetBytes_uint256;
    unfold returnPackedElement, common.HashLength; rewrite length_take; lia.
Qed.

(** A well-formed setFeeConfig call by an enabled caller stores what its
    body decodes to, and [GetFeeConfig] then returns it. *)
Lemma createSetFeeConfig_stores (stateDB : StateDB)
    (caller addr : common.Address) (input : list byte) (suppliedGas : N) :
  (SetFeeConfigGasCost <= suppliedGas)%N ->
  length input = 256%nat ->
  IsEnabled (getAllowListStatus stateDB FeeConfigManagerAddress caller)
  = true ->
  exists cfg stateDB',
    UnpackFeeConfigInput input = (cfg, None) /\
    createSetFeeConfig stateDB caller addr input suppliedGas false
    = Returns {| ret := [];
                 remainingGas := suppliedGas - SetFeeConfigGasCost;
                 err := None; state := stateDB' |} /\
    setFeeConfig stateDB cfg = Returns (stateDB', None) /\
    GetFeeConfig stateDB' = Returns (cfg, None).
Proof.
  intros Hgas Hlen Hrole.
  destruct (UnpackFeeConfigInput_uint256 input Hlen) as (cfg & Hcfg & Hrange).
  destruct (GetFeeConfig_setFeeConfig stateDB cfg Hrange)
    as (stateDB' & Hset & Hget).
  exists cfg, stateDB'. repeat split; try done.
  unfold createSetFeeConfig.
  rewrite deductGas_enough, Hcfg, Hrole, Hset by done.
  reflexivity.
Qed.

Lemma PackSetFeeConfigInput_unpack (cfg : FeeConfig) :
  FeeConfig_uint256 cfg ->
  exists packed,
    PackSetFeeConfigInput cfg = Returns (packed, None) /\
    length (drop selectorLen packed) = 256%nat /\
    UnpackFeeConfigInput (drop selectorLen packed) = (cfg, None).
Proof.
  destruct cfg as [f0 f1 f2 f3 f4 f5 f6 f7].
  unfold FeeConfig_uint256, uint256. cbn [GasLimit TargetBlockRate MinBaseFee
    TargetGas BaseFeeChangeDenominator MinBlockGasCost MaxBlockGasCost
    BlockGasCostStep].
  intros ((v0 & -> & H0) & (v1 & -> & H1) & (v2 & -> & H2) & (v3 & -> & H3) &
          (v4 & -> & H4) & (v5 & -> & H5) & (v6 & -> & H6) & (v7 & -> & H7)).
  unfold PackSetFeeConfigInput. cbn [GasLimit TargetBlockRate MinBaseFee
    TargetGas BaseFeeChangeDenominator MinBlockGasCost MaxBlockGasCost
    BlockGasCostStep].
  rewrite !FillBytes_fits by (change (256 ^ Z.of_nat 32) with (2 ^ 256); lia).
  cbn [obind]. unfold inputPackOrdered. cbn [concat].
  set (w0 := be_bytes 32 (Z.abs_N v0)). set (w1 := be_bytes 32 (Z.abs_N v1)).
  set (w2 := be_bytes 32 (Z.abs_N v2)). set (w3 := be_bytes 32 (Z.abs_N v3)).
  set (w4 := be_bytes 32 (Z.abs_N v4)). set (w5 := be_bytes 32 (Z.abs_N v5)).
  set (w6 := be_bytes 32 (Z.abs_N v6)). set (w7 := be_bytes 32 (Z.abs_N v7)).
  assert (length w0 = 32%nat /\ length w1 = 32%nat /\ length w2 = 32%nat /\
          length w3 = 32%nat /\ length w4 = 32%nat /\ length w5 = 32%nat /\
          length w6 = 32%nat /\ length w7 = 32%nat)
    as (L0 & L1 & L2 & L3 & L4 & L5 & L6 & L7)
    by (repeat split; apply length_be_bytes).
  assert (length (selector_bytes setFeeConfigSignature) = 4%nat) as Hsel.
  { by destruct setFeeConfigSignature as [[[a b] c] d]. }
  set (body := w0 ++ w1 ++ w2 ++ w3 ++ w4 ++ w5 ++ w6 ++ w7 ++ []).
  assert (length body = 256%nat) as Hbody.
  { unfold body. rewrite !length_app. simpl length. lia. }
  rewrite length_app, Hsel, Hbody.
  change (4 + 256 =? selectorLen + feeConfigInputLen)%nat with true.
  cbv iota. eexists. split; [reflexivity|].
  rewrite drop_app_length' by done. split; [done|].
  unfold UnpackFeeConfigInput. change feeConfigInputLen with 256%nat.
  rewrite Hbody. simpl negb. cbv iota. unfold body.
  repeat (rewrite ?returnPackedElement_S by done;
          rewrite returnPackedElement_0 by done).
  unfold w0, w1, w2, w3, w4, w5, w6, w7.
  by rewrite !SetBytes_be_bytes
    by (change (256 ^ Z.of_nat 32) with (2 ^ 256); lia).
Qed.

(** C1. For a fee configuration whose eight fields are unsigned 256-bit
    numbers, zero and 2^256-1 included: packing it gives a call whose
    256-byte body decodes to it; the setFeeConfig handler, called with that
    body by an enabled caller with enough gas and the read-only flag unset,
    succeeds; and [GetFeeConfig] on the state the handler leaves returns
    exactly that configuration, without error. *)
Theorem GetFeeConfig_after_setFeeConfig (stateDB : StateDB)
    (caller addr : common.Address) (suppliedGas : N) (cfg : FeeConfig) :
  FeeConfig_uint256 cfg ->
  (SetFeeConfigGasCost <= suppliedGas)%N ->
  IsEnabled (getAllowListStatus stateDB FeeConfigManagerAddress caller)
  = true ->
  exists (packed : list byte) (stateDB' : StateDB),
    PackSetFeeConfigInput cfg = Returns (packed, None) /\
    length (drop selectorLen packed) = 256%nat /\
    UnpackFeeConfigInput (drop selectorLen packed) = (cfg, None) /\
    createSetFeeConfig stateDB caller addr (drop selectorLen packed)
      suppliedGas false
    = Returns {| ret := [];
                 remainingGas := suppliedGas - SetFeeConfigGasCost;
                 err := None; state := stateDB' |} /\
    GetFeeConfig stateDB' = Returns (cfg, None).
Proof.
  intros Hrange Hgas Hrole.
  destruct (PackSetFeeConfigInput_unpack cfg Hrange)
    as (packed & Hpack & Hlen & Hunpack).
  destruct (createSetFeeConfig_stores stateDB caller addr
              (drop selectorLen packed) suppliedGas Hgas Hlen Hrole)
    as (cfg' & stateDB' & Hcfg' & Hrun & _ & Hget).
  rewrite Hunpack in Hcfg'. injection Hcfg' as <-.
  by exists packed, stateDB'.
Qed.

End PrecompileProperties.

(** ** The properties on concrete calls *)

Section Examples.
#[local] Existing Instance exampleParams.

Ltac compute_hyp := vm_compute; first [reflexivity | discriminate | done].

Lemma uint256_maxConfig : FeeConfig_uint256 maxConfig.
Proof.
  repeat split; exists maxUint256; (split; [reflexivity|]);
    split; compute_hyp.
Qed.

Lemma GetFeeConfig_after_setFeeConfig_witness :
  FeeConfig_uint256 maxConfig /\
  (SetFeeConfigGasCost <= 200000)%N /\
  IsEnabled (getAllowListStatus seededState FeeConfigManagerAddress alice)
  = true /\
  exists (packed : list byte) (stateDB' : StateDB),
    PackSetFeeConfigInput maxConfig = Returns (packed, None) /\
    length (drop selectorLen packed) = 256%nat /\
    UnpackFeeConfigInput (drop selectorLen packed) = (maxConfig, None) /\
    createSetFeeConfig seededState alice FeeConfigManagerAddress
      (drop selectorLen packed) 200000%N false
    = Returns {| ret := []; remainingGas := (200000 - SetFeeConfigGasCost)%N;
                 err := None; state := stateDB' |} /\
    GetFeeConfig stateDB' = Returns (maxConfig, None).
Proof.
  assert (SetFeeConfigGasCost <= 200000)%N as Hgas by compute_hyp.
  assert (IsEnabled
            (getAllowListStatus seededState FeeConfigManagerAddress alice)
          = true) as Hrole by compute_hyp.
  split; [exact uint256_maxConfig|]. split; [exact Hgas|].
  split; [exact Hrole|].
  exact (GetFeeConfig_after_setFeeConfig seededState alice
           FeeConfigManagerAddress 200000%N maxConfig uint256_maxConfig
           Hgas Hrole).
Defined.

Lemma UnpackMintInput_PackMintInput_witness :
  length dave = 20%nat /\
  0 <= 500 < 2 ^ 256 /\
  exists packed,
    PackMintInput dave (Some 500) = Returns (packed, None) /\
    UnpackMintInput (drop selectorLen packed) = (dave, Some 500, None).
Proof.
  assert (length dave = 20%nat) as Hlen by reflexivity.
  assert (0 <= 500 < 2 ^ 256) as Hamount by (split; compute_hyp).
  split; [exact Hlen|]. split; [exact Hamount|].
  exact (UnpackMintInput_PackMintInput dave 500 Hlen Hamount).
Defined.

Lemma createMintNativeCoin_mints_witness :
  (MintGasCost <= 40000)%N /\
  length (mintBody 0 dave 500) = 64%nat /\
  IsEnabled (getAllowListStatus seededState ContractNativeMinterAddress alice)
  = true /\
  Exist seededState dave = false /\
  exists (to : common.Address) (amount : Z) (stateDB' : StateDB),
    UnpackMintInput (mintBody 0 dave 500) = (to, Some amount, None) /\
    0 <= amount < 2 ^ 256 /\
    createMintNativeCoin seededState alice ContractNativeMinterAddress
      (mintBody 0 dave 500) 40000%N false
    = Returns {| ret := []; remainingGas := (40000 - MintGasCost)%N;
                 err := None; state := stateDB' |} /\
    AddBalance (if Exist seededState to then seededState
                else CreateAccount seededState to) to (Some amount)
    = Returns stateDB' /\
    Exist stateDB' to = true /\
    GetBalance stateDB' to = GetBalance seededState to + amount /\
    (Exist seededState to = false -> GetBalance stateDB' to = amount) /\
    (forall a : common.Address, a <> to -> stateDB' !! a = seededState !! a).
Proof.
  assert (MintGasCost <= 40000)%N as Hgas by compute_hyp.
  assert (length (mintBody 0 dave 500) = 64%nat) as Hlen by reflexivity.
  assert (IsEnabled
            (getAllowListStatus seededState ContractNativeMinterAddress alice)
          = true) as Hrole by compute_hyp.
  split; [exact Hgas|]. split; [exact Hlen|]. split; [exact Hrole|].
  split; [compute_hyp|].
  exact (createMintNativeCoin_mints seededState alice
           ContractNativeMinterAddress (mintBody 0 dave 500) 40000%N
           Hgas Hlen Hrole).
Defined.

Lemma run_out_of_gas_witness :
  (29999 < gasCost MintNativeCoin)%N /\
  run MintNativeCoin seededState alice ContractNativeMinterAddress
    (mintBody 0 dave 500) 29999%N false
  = Returns {| ret := []; remainingGas := 0; err := Some ErrOutOfGas;
               state := seededState |}.
Proof.
  assert (29999 < gasCost MintNativeCoin)%N as Hgas by compute_hyp.
  split; [exact Hgas|].
  exact (proj1 (run_out_of_gas MintNativeCoin seededState alice
                  ContractNativeMinterAddress (mintBody 0 dave 500) 29999%N
                  false Hgas)).
Defined.

Lemma write_handlers_readOnly_witness :
  (MintGasCost <= 200000)%N /\
  (SetFeeConfigGasCost <= 200000)%N /\
  createMintNativeCoin seededState alice ContractNativeMinterAddress
    (mintBody 0 dave 500) 200000%N true
  = Returns {| ret := []; remainingGas := (200000 - MintGasCost)%N;
               err := Some ErrWriteProtection; state := seededState |} /\
  createSetFeeConfig seededState alice FeeConfigManagerAddress [] 200000%N true
  = Returns {| ret := []; remainingGas := (200000 - SetFeeConfigGasCost)%N;
               err := Some ErrWriteProtection; state := seededState |}.
Proof.
  assert (MintGasCost <= 200000)%N as Hmint by compute_hyp.
  assert (SetFeeConfigGasCost <= 200000)%N as Hfee by compute_hyp.
  split; [exact Hmint|]. split; [exact Hfee|]. split.
  - exact (proj1 (write_handlers_readOnly seededState alice
                    ContractNativeMinterAddress (mintBody 0 dave 500) 200000)
             Hmint).
  - exact (proj1 (proj2 (write_handlers_readOnly seededState alice
                           FeeConfigManagerAddress [] 200000))
             Hfee).
Defined.

Lemma write_handlers_not_enabled_witness :
  (MintGasCost <= 40000)%N /\
  length (mintBody 0 dave 1) = 64%nat /\
  IsEnabled (getAllowListStatus seededState ContractNativeMinterAddress bob)
  = false /\
  createMintNativeCoin seededState bob ContractNativeMinterAddress
    (mintBody 0 dave 1) 40000%N false
  = Returns {| ret := []; remainingGas := (40000 - MintGasCost)%N;
               err := Some (ErrCannotMint bob); state := seededState |}.
Proof.
  assert (MintGasCost <= 40000)%N as Hgas by compute_hyp.
  assert (length (mintBody 0 dave 1) = 64%nat) as Hlen by reflexivity.
  assert (IsEnabled
            (getAllowListStatus seededState ContractNativeMinterAddress bob)
          = false) as Hrole by compute_hyp.
  split; [exact Hgas|]. split; [exact Hlen|]. split; [exact Hrole|].
  exact (proj1 (proj1 (write_handlers_not_enabled seededState bob
                         ContractNativeMinterAddress (mintBody 0 dave 1)
                         40000) Hgas Hlen Hrole)).
Defined.

Lemma Unpack_invalid_length_iff_witness :
  length (mintBody 0 dave 1 ++ [x00]) <> 64%nat /\
  (exists e,
     UnpackMintInput (mintBody 0 dave 1 ++ [x00])
     = (common.zeroAddress, None, Some e) /\
     kind_of e = InvalidInputLength) /\
  length (mintBody 0 dave 1) = 64%nat /\
  snd (UnpackMintInput (mintBody 0 dave 1)) = None.
Proof.
  assert (length (mintBody 0 dave 1 ++ [x00]) <> 64%nat) as Hbad
    by compute_hyp.
  assert (length (mintBody 0 dave 1) = 64%nat) as Hgood by reflexivity.
  split; [exact Hbad|]. split; [|split; [exact Hgood|]].
  - exact (proj1 (Unpack_invalid_length_iff (mintBody 0 dave 1 ++ [x00]))
             Hbad).
  - exact (proj1 (proj2 (Unpack_invalid_length_iff (mintBody 0 dave 1)))
             Hgood).
Defined.

Lemma GetFeeConfig_cases_witness :
  Exist (∅ : StateDB) FeeConfigManagerAddress = false /\
  GetFeeConfig ∅ = Returns (FeeConfig_zero, None).
Proof.
  assert (Exist (∅ : StateDB) FeeConfigManagerAddress = false) as Hex
    by reflexivity.
  split; [exact Hex|].
  exact (proj1 (GetFeeConfig_cases ∅) Hex).
Defined.

Lemma xChainECRecover_echo_witness :
  (MintGasCost <= 40000)%N /\
  createXChainECRecover ∅ alice ContractXchainECRecoverAddress [x01; x02]
    40000%N false
  = Returns {| ret := [x01; x02]; remainingGas := (40000 - MintGasCost)%N;
               err := None; state := ∅ |}.
Proof.
  assert (MintGasCost <= 40000)%N as Hgas by compute_hyp.
  split; [exact Hgas|].
  exact (proj1 (xChainECRecover_echo ∅ alice ContractXchainECRecoverAddress
                  ContractXchainECRecoverAddress [x01; x02] 40000%N false)
           Hgas).
Defined.

(** The write-styled stub, called with the read-only flag set and enough
    gas, does not return its input: it fails with the write-protection
    error and returns no output. *)
Lemma xChainECRecover_readOnly_counterexample :
  (MintGasCost <= 40000)%N /\
  createXChainECRecover ∅ alice ContractXchainECRecoverAddress [x01; x02]
    40000%N true
  = Returns {| ret := []; remainingGas := 10000%N;
               err := Some ErrWriteProtection; state := ∅ |} /\
  createXChainECRecover ∅ alice ContractXchainECRecoverAddress [x01; x02]
    40000%N true
  <> Returns {| ret := [x01; x02]; remainingGas := (40000 - MintGasCost)%N;
                err := None; state := ∅ |}.
Proof.
  split; [compute_hyp|]. split; [reflexivity|].
  vm_compute. discriminate.
Qed.

Lemma UnpackMintInput_drops_high_bytes_witness :
  length (mintBody 0 dave 500) = 64%nat /\
  length (mintBody 0xFFFFFFFFFFFFFFFFFFFFFFFF dave 500) = 64%nat /\
  mintBody 0xFFFFFFFFFFFFFFFFFFFFFFFF dave 500 <> mintBody 0 dave 500 /\
  drop 12 (mintBody 0xFFFFFFFFFFFFFFFFFFFFFFFF dave 500)
  = drop 12 (mintBody 0 dave 500) /\
  UnpackMintInput (mintBody 0xFFFFFFFFFFFFFFFFFFFFFFFF dave 500)
  = UnpackMintInput (mintBody 0 dave 500).
Proof.
  assert (length (mintBody 0 dave 500) = 64%nat) as Hlen by reflexivity.
  assert (length (mintBody 0xFFFFFFFFFFFFFFFFFFFFFFFF dave 500) = 64%nat)
    as Hlen' by reflexivity.
  assert (drop 12 (mintBody 0xFFFFFFFFFFFFFFFFFFFFFFFF dave 500)
          = drop 12 (mintBody 0 dave 500)) as Heq by reflexivity.
  split; [exact Hlen|]. split; [exact Hlen'|].
  split; [vm_compute; discriminate|]. split; [exact Heq|].
  exact (proj2 (UnpackMintInput_drops_high_bytes (mintBody 0 dave 500)
                  (mintBody 0xFFFFFFFFFFFFFFFFFFFFFFFF dave 500)
                  Hlen Hlen' Heq)).
Defined.

(** Scenario A: [alice], Admin of the fee config manager, sets the
    configuration and reads it back; [bob], who has no role, is refused and
    the configuration stays. *)
Example scenario_A_set_and_get :
  (let! p := PackSetFeeConfigInput scenarioConfig in
   let! r := createSetFeeConfig seededState alice FeeConfigManagerAddress
               (drop selectorLen (fst p)) 200000%N false in
   let! c := GetFeeConfig (state r) in
   Returns (err r, c))
  = Returns (None, (scenarioConfig, None)).
Proof. vm_compute. reflexivity. Qed.

Example scenario_A_denied :
  (let! p := PackSetFeeConfigInput scenarioConfig in
   let! r := createSetFeeConfig seededState alice FeeConfigManagerAddress
               (drop selectorLen (fst p)) 200000%N false in
   let! q := PackSetFeeConfigInput maxConfig in
   let! r' := createSetFeeConfig (state r) bob FeeConfigManagerAddress
                (drop selectorLen (fst q)) 200000%N false in
   let! c := GetFeeConfig (state r') in
   Returns (option_map kind_of (err r'), c))
  = Returns (Some PermissionDenied, (scenarioConfig, None)).
Proof. vm_compute. reflexivity. Qed.

Example zeroConfig_set_and_get :
  (let! p := PackSetFeeConfigInput zeroConfig in
   let! r := createSetFeeConfig seededState alice FeeConfigManagerAddress
               (drop selectorLen (fst p)) 200000%N false in
   GetFeeConfig (state r))
  = Returns (zeroConfig, None).
Proof. vm_compute. reflexivity. Qed.

(** Scenario B: [alice] enables [carol]; [carol] mints 500 to [dave], who
    has no account; [dave], not enabled, cannot mint to [bob]. *)
Example scenario_B :
  (let! r1 := createAllowListRoleSetter ContractNativeMinterAddress
                AllowListEnabled seededState alice
                ContractNativeMinterAddress (common.Address_Hash carol)
                100000%N false in
   let! r2 := createMintNativeCoin (state r1) carol
                ContractNativeMinterAddress (mintBody 0 dave 500) 100000%N
                false in
   let! r3 := createMintNativeCoin (state r2) dave
                ContractNativeMinterAddress (mintBody 0 bob 1) 100000%N
                false in
   Returns (err r1, err r2, GetBalance (state r2) dave,
            option_map kind_of (err r3), GetBalance (state r3) bob))
  = Returns (None, None, 500, Some PermissionDenied, 0).
Proof. vm_compute. reflexivity. Qed.

(** A value that does not fit 32 bytes makes [PackMintInput] panic. *)
Example PackMintInput_too_large :
  PackMintInput dave (Some (2 ^ 256)) = Panics.
Proof. vm_compute. reflexivity. Qed.

End Examples.

(** * Further properties of the code *)

(** ** Encoding: sign and overflow *)

Lemma byte_len_gt (n : nat) (v : N) :
  (256 ^ N.of_nat n <= v)%N -> (n < byte_len v)%nat.
Proof.
  intros Hv. destruct (Nat.lt_ge_cases n (byte_len v)) as [|Hle]; [done|].
  pose proof (byte_len_fits v) as Hfit.
  assert (256 ^ N.of_nat (byte_len v) <= 256 ^ N.of_nat n)%N
    by (apply N.pow_le_mono_r; lia).
  lia.
Qed.

Lemma abs_N_lt_pow (n : nat) (z : Z) :
  (Z.abs_N z < 256 ^ N.of_nat n)%N <-> Z.abs z < 256 ^ Z.of_nat n.
Proof.
  rewrite N2Z.inj_lt, N2Z.inj_abs_N, N2Z.inj_pow, nat_N_Z. done.
Qed.

Lemma FillBytes_Some (n : nat) (z : Z) :
  big.FillBytes (Some z) n
  = if decide (Z.abs z < 256 ^ Z.of_nat n)
    then Returns (be_bytes n (Z.abs_N z)) else Panics.
Proof.
  unfold big.FillBytes. case_decide as Hz.
  - apply abs_N_lt_pow, byte_len_le in Hz.
    destruct (Nat.ltb_spec n (byte_len (Z.abs_N z))); [lia|done].
  - assert (256 ^ N.of_nat n <= Z.abs_N z)%N as Hge.
    { destruct (N.le_gt_cases (256 ^ N.of_nat n) (Z.abs_N z)); [done|].
      by apply abs_N_lt_pow in H. }
    apply byte_len_gt in Hge.
    destruct (Nat.ltb_spec n (byte_len (Z.abs_N z))); [done|lia].
Qed.

Lemma SetBytes_be_bytes_abs (n : nat) (z : Z) :
  Z.abs z < 256 ^ Z.of_nat n ->
  big.SetBytes (be_bytes n (Z.abs_N z)) = Some (Z.abs z).
Proof.
  intros Hz. unfold big.SetBytes. f_equal.
  rewrite from_be_be_bytes, N.mod_small by by apply abs_N_lt_pow.
  apply N2Z.inj_abs_N.
Qed.

Lemma Hash_Big_hashOfBig_any (z : Z) :
  common.Hash_Big (common.hashOfBig z) = Some (stored256 z).
Proof.
  unfold common.Hash_Big, big.SetBytes, common.hashOfBig, common.BytesToHash,
    stored256.
  f_equal. rewrite from_be_right_align, from_be_be_bytes.
  rewrite (N.mod_small _ (256 ^ N.of_nat (byte_len (Z.abs_N z))))
    by apply byte_len_fits.
  rewrite N2Z.inj_mod, N2Z.inj_abs_N. done.
Qed.

Lemma length_Address_Hash (a : common.Address) :
  length (common.Address_Hash a) = 32%nat.
Proof. apply length_right_align. Qed.

Lemma Address_Hash_20 (a : common.Address) :
  length a = 20%nat -> common.Address_Hash a = zeros 12 ++ a.
Proof.
  intros Ha. unfold common.Address_Hash, common.BytesToHash,
    common.HashLength.
  rewrite right_align_short by lia. by rewrite Ha.
Qed.

Section CodeProperties.
Context `{Params}.

Lemma length_selector_bytes (sel : selector) :
  length (selector_bytes sel) = 4%nat.
Proof. by destruct sel as [[[a b] c] d]. Qed.

(** What [PackMintInput] returns when it returns. *)
Lemma PackMintInput_Some (to : common.Address) (amount : Z) :
  Z.abs amount < 2 ^ 256 ->
  PackMintInput to (Some amount)
  = Returns (selector_bytes mintSignature ++ common.Address_Hash to
               ++ be_bytes 32 (Z.abs_N amount), None).
Proof.
  intros Hamount. unfold PackMintInput.
  rewrite FillBytes_Some. rewrite decide_True by done.
  cbn [obind]. unfold inputPackOrdered. cbn [concat].
  rewrite app_nil_r, !length_app, length_selector_bytes,
    length_Address_Hash, length_be_bytes.
  reflexivity.
Qed.

(** X1. [PackMintInput] encodes the absolute value of the amount: for a
    20-byte address and an amount of either sign whose absolute value is
    below 2^256 it returns, without error, 68 bytes that start with the
    selector, and unpacking the rest gives the address and the absolute
    value of the amount. *)
Theorem PackMintInput_absolute_value (to : common.Address) (amount : Z) :
  length to = 20%nat ->
  Z.abs amount < 2 ^ 256 ->
  exists packed,
    PackMintInput to (Some amount) = Returns (packed, None) /\
    length packed = 68%nat /\
    take selectorLen packed = selector_bytes mintSignature /\
    UnpackMintInput (drop selectorLen packed)
    = (to, Some (Z.abs amount), None).
Proof.
  intros Hto Hamount. eexists.
  split; [by apply PackMintInput_Some|].
  assert (length (common.Address_Hash to ++ be_bytes 32 (Z.abs_N amount))
          = 64%nat) as Hbody
    by (rewrite length_app, length_Address_Hash, length_be_bytes; lia).
  split; [rewrite length_app, length_selector_bytes, Hbody; lia|].
  split; [apply take_app_length'; by rewrite length_selector_bytes|].
  rewrite drop_app_length' by by rewrite length_selector_bytes.
  rewrite UnpackMintInput_ok by done.
  rewrite Address_Hash_20 by done. f_equal. f_equal.
  - rewrite <- app_assoc, drop_app_length'
      by (unfold zeros; by rewrite length_replicate).
    by rewrite take_app_length'.
  - rewrite drop_app_length'
      by (rewrite length_app; unfold zeros; rewrite length_replicate; lia).
    by apply SetBytes_be_bytes_abs.
Qed.

(** X2. [PackMintInput] never returns an error: it panics exactly when the
    amount is nil or its absolute value is 2^256 or more, and otherwise
    returns 68 bytes with a nil error, whatever the address. *)
Theorem PackMintInput_panics_iff (to : common.Address) (amount : option Z) :
  (PackMintInput to amount = Panics <-> ~ fits256 amount) /\
  (fits256 amount ->
   exists packed,
     PackMintInput to amount = Returns (packed, None) /\
     length packed = 68%nat).
Proof.
  assert (fits256 amount ->
          exists packed, PackMintInput to amount = Returns (packed, None) /\
                         length packed = 68%nat) as Hok.
  { intros (z & -> & Hz). eexists. split; [by apply PackMintInput_Some|].
    rewrite !length_app, length_selector_bytes, length_Address_Hash,
      length_be_bytes. lia. }
  split; [|exact Hok]. split.
  - intros Hpanic Hfits. destruct (Hok Hfits) as (packed & Hpacked & _).
    congruence.
  - intros Hnot. destruct amount as [z|]; [|done].
    unfold PackMintInput. rewrite FillBytes_Some.
    rewrite decide_False; [done|].
    intros Hz. apply Hnot. by exists z.
Qed.

(** X3. Unpacking a 64-byte body and packing the result again returns the
    selector followed by the body with its 12 high bytes zeroed; it is the
    selector followed by the body itself when those 12 bytes are zero. *)
Theorem PackMintInput_UnpackMintInput (input : list byte) :
  length input = 64%nat ->
  exists to amount,
    UnpackMintInput input = (to, amount, None) /\
    PackMintInput to amount
    = Returns (selector_bytes mintSignature ++ zeros 12 ++ drop 12 input,
               None) /\
    (take 12 input = zeros 12 ->
     PackMintInput to amount
     = Returns (selector_bytes mintSignature ++ input, None)).
Proof.
  intros Hlen. do 2 eexists. split; [by apply UnpackMintInput_ok|].
  assert (PackMintInput (take 20 (drop 12 input))
            (big.SetBytes (drop 32 input))
          = Returns (selector_bytes mintSignature ++ zeros 12
                       ++ drop 12 input, None)) as Hpack.
  { unfold big.SetBytes.
    pose proof (from_be_bound (drop 32 input)) as Hb.
    rewrite length_drop, Hlen in Hb. apply N2Z.inj_lt in Hb.
    change (Z.of_N (256 ^ N.of_nat (64 - 32))) with (2 ^ 256) in Hb.
    rewrite PackMintInput_Some by lia.
    rewrite Address_Hash_20 by (rewrite length_take, length_drop; lia).
    rewrite Zabs2N.id.
    replace 32%nat with (length (drop 32 input)) at 1
      by (rewrite length_drop; lia).
    rewrite be_bytes_from_be.
    do 3 f_equal. rewrite <- app_assoc. f_equal.
    change 32%nat with (12 + 20)%nat. rewrite <- drop_drop.
    apply take_drop. }
  split; [exact Hpack|].
  intros Hhigh. rewrite Hpack, <- Hhigh. by rewrite take_drop.
Qed.

(** ** The fee configuration: encoding *)

Lemma length_returnPackedElement (input : list byte) (i : nat) :
  (32 * S i <= length input)%nat ->
  length (returnPackedElement input i) = 32%nat.
Proof.
  intros Hlen. unfold returnPackedElement, common.HashLength.
  rewrite length_take, length_drop. lia.
Qed.

Lemma returnPackedElement_drop (input : list byte) (i : nat) :
  returnPackedElement input i ++ drop (32 * S i) input
  = drop (32 * i) input.
Proof.
  unfold returnPackedElement, common.HashLength.
  replace (32 * S i)%nat with (32 * i + 32)%nat by lia.
  rewrite <- drop_drop. apply take_drop.
Qed.

Lemma words_of_body (input : list byte) :
  length input = 256%nat ->
  returnPackedElement input 0 ++ returnPackedElement input 1
    ++ returnPackedElement input 2 ++ returnPackedElement input 3
    ++ returnPackedElement input 4 ++ returnPackedElement input 5
    ++ returnPackedElement input 6 ++ returnPackedElement input 7 ++ []
  = input.
Proof.
  intros Hlen.
  assert (drop (32 * 8) input = []) as Hend by (apply drop_ge; lia).
  rewrite <- Hend.
  rewrite !returnPackedElement_drop. apply drop_0.
Qed.

Lemma FillBytes_SetBytes (w : list byte) :
  length w = 32%nat -> big.FillBytes (big.SetBytes w) 32 = Returns w.
Proof.
  intros Hw. unfold big.SetBytes. rewrite FillBytes_Some.
  pose proof (from_be_bound w) as Hb. rewrite Hw in Hb.
  apply N2Z.inj_lt in Hb.
  change (Z.of_N (256 ^ N.of_nat 32)) with (256 ^ Z.of_nat 32) in Hb.
  rewrite decide_True by lia.
  rewrite Zabs2N.id. rewrite <- Hw at 1. by rewrite be_bytes_from_be.
Qed.

(** X4. Unpacking a 256-byte body and packing the result again returns the
    selector followed by that very body: no byte of the body is dropped or
    changed, and two different 256-byte bodies never decode to the same
    fee configuration. *)
Theorem PackSetFeeConfigInput_UnpackFeeConfigInput (input input' : list byte) :
  length input = 256%nat ->
  length input' = 256%nat ->
  PackSetFeeConfigInput (UnpackFeeConfigInput input).1
  = Returns (selector_bytes setFeeConfigSignature ++ input, None) /\
  (UnpackFeeConfigInput input' = UnpackFeeConfigInput input ->
   input' = input).
Proof.
  assert (forall b : list byte, length b = 256%nat ->
            PackSetFeeConfigInput (UnpackFeeConfigInput b).1
            = Returns (selector_bytes setFeeConfigSignature ++ b, None))
    as Hpack.
  { intros b Hb. unfold UnpackFeeConfigInput.
    change feeConfigInputLen with 256%nat. rewrite Hb.
    simpl negb. cbv iota. cbn [fst].
    unfold PackSetFeeConfigInput. cbn [GasLimit TargetBlockRate MinBaseFee
      TargetGas BaseFeeChangeDenominator MinBlockGasCost MaxBlockGasCost
      BlockGasCostStep].
    rewrite !FillBytes_SetBytes by (apply length_returnPackedElement; lia).
    cbn [obind]. unfold inputPackOrdered. cbn [concat].
    rewrite words_of_body by done.
    rewrite length_app, length_selector_bytes, Hb. reflexivity. }
  intros Hlen Hlen'. split; [by apply Hpack|].
  intros Heq. pose proof (Hpack input Hlen) as Hp.
  rewrite <- Heq, Hpack in Hp by done.
  injection Hp as Hp. by apply app_inv_head in Hp.
Qed.

Lemma FillBytes_cases (x : option Z) :
  (exists z, x = Some z /\ Z.abs z < 2 ^ 256 /\
             big.FillBytes x 32 = Returns (be_bytes 32 (Z.abs_N z))) \/
  (~ fits256 x /\ big.FillBytes x 32 = Panics).
Proof.
  destruct x as [z|].
  - rewrite FillBytes_Some.
    change (256 ^ Z.of_nat 32) with (2 ^ 256). case_decide as Hz.
    + left. by exists z.
    + right. split; [|done]. intros (z' & [= <-] & Hz'). done.
  - right. split; [|done]. by intros (z' & [=] & _).
Qed.

Lemma PackSetFeeConfigInput_cases (cfg : FeeConfig) :
  (Forall fits256 (FeeConfig_fields cfg) /\
   exists packed,
     PackSetFeeConfigInput cfg = Returns (packed, None) /\
     length packed = 260%nat /\
     UnpackFeeConfigInput (drop selectorLen packed)
     = (FeeConfig_map Z.abs cfg, None)) \/
  (~ Forall fits256 (FeeConfig_fields cfg) /\
   PackSetFeeConfigInput cfg = Panics).
Proof.
  destruct cfg as [f0 f1 f2 f3 f4 f5 f6 f7].
  unfold FeeConfig_fields, FeeConfig_map, PackSetFeeConfigInput.
  cbn [GasLimit TargetBlockRate MinBaseFee TargetGas
    BaseFeeChangeDenominator MinBlockGasCost MaxBlockGasCost
    BlockGasCostStep].
  rewrite !Forall_cons, Forall_nil.
  destruct (FillBytes_cases f0) as [(v0 & -> & H0 & ->)|[N0 ->]];
    [|right; split; [tauto|done]].
  destruct (FillBytes_cases f1) as [(v1 & -> & H1 & ->)|[N1 ->]];
    [|right; split; [tauto|done]].
  destruct (FillBytes_cases f2) as [(v2 & -> & H2 & ->)|[N2 ->]];
    [|right; split; [tauto|done]].
  destruct (FillBytes_cases f3) as [(v3 & -> & H3 & ->)|[N3 ->]];
    [|right; split; [tauto|done]].
  destruct (FillBytes_cases f4) as [(v4 & -> & H4 & ->)|[N4 ->]];
    [|right; split; [tauto|done]].
  destruct (FillBytes_cases f5) as [(v5 & -> & H5 & ->)|[N5 ->]];
    [|right; split; [tauto|done]].
  destruct (FillBytes_cases f6) as [(v6 & -> & H6 & ->)|[N6 ->]];
    [|right; split; [tauto|done]].
  destruct (FillBytes_cases f7) as [(v7 & -> & H7 & ->)|[N7 ->]];
    [|right; split; [tauto|done]].
  left. split; [repeat split; eexists; split; try reflexivity; done|].
  cbn [obind]. unfold inputPackOrdered. cbn [concat].
  set (w0 := be_bytes 32 (Z.abs_N v0)). set (w1 := be_bytes 32 (Z.abs_N v1)).
  set (w2 := be_bytes 32 (Z.abs_N v2)). set (w3 := be_bytes 32 (Z.abs_N v3)).
  set (w4 := be_bytes 32 (Z.abs_N v4)). set (w5 := be_bytes 32 (Z.abs_N v5)).
  set (w6 := be_bytes 32 (Z.abs_N v6)). set (w7 := be_bytes 32 (Z.abs_N v7)).
  assert (length w0 = 32%nat /\ length w1 = 32%nat /\ length w2 = 32%nat /\
          length w3 = 32%nat /\ length w4 = 32%nat /\ length w5 = 32%nat /\
          length w6 = 32%nat /\ length w7 = 32%nat)
    as (L0 & L1 & L2 & L3 & L4 & L5 & L6 & L7)
    by (repeat split; apply length_be_bytes).
  set (body := w0 ++ w1 ++ w2 ++ w3 ++ w4 ++ w5 ++ w6 ++ w7 ++ []).
  assert (length body = 256%nat) as Hbody.
  { unfold body. rewrite !length_app. simpl length. lia. }
  rewrite length_app, length_selector_bytes, Hbody.
  change (4 + 256 =? selectorLen + feeConfigInputLen)%nat with true.
  cbv iota. eexists. split; [reflexivity|].
  split; [rewrite length_app, length_selector_bytes, Hbody; lia|].
  rewrite drop_app_length' by by rewrite length_selector_bytes.
  unfold UnpackFeeConfigInput. change feeConfigInputLen with 256%nat.
  rewrite Hbody. simpl negb. cbv iota. unfold body.
  repeat (rewrite ?returnPackedElement_S by done;
          rewrite returnPackedElement_0 by done).
  unfold w0, w1, w2, w3, w4, w5, w6, w7.
  by rewrite !SetBytes_be_bytes_abs.
Qed.

(** X5. [PackSetFeeConfigInput] never returns an error.  It panics exactly
    when some field is nil or has an absolute value of 2^256 or more;
    otherwise it returns 260 bytes, and unpacking them after the selector
    gives the configuration with every field replaced by its absolute
    value. *)
Theorem PackSetFeeConfigInput_panics_iff (cfg : FeeConfig) :
  (Forall fits256 (FeeConfig_fields cfg) ->
   exists packed,
     PackSetFeeConfigInput cfg = Returns (packed, None) /\
     length packed = 260%nat /\
     UnpackFeeConfigInput (drop selectorLen packed)
     = (FeeConfig_map Z.abs cfg, None)) /\
  (PackSetFeeConfigInput cfg = Panics
   <-> ~ Forall fits256 (FeeConfig_fields cfg)).
Proof.
  destruct (PackSetFeeConfigInput_cases cfg)
    as [(Hfits & packed & Hpack & Hrest)|[Hnot Hpanic]].
  - split; [intros _; by exists packed|].
    rewrite Hpack. split; [done|tauto].
  - split; [tauto|]. by rewrite Hpanic.
Qed.

(** ** The fee configuration: storing *)

Lemma not_Forall_is_Some (l : list (option Z)) :
  None ∈ l -> ~ Forall is_Some l.
Proof.
  intros Hin Hall. rewrite Forall_forall in Hall.
  by destruct (Hall None Hin) as [? [=]].
Qed.

Lemma setFeeConfig_Some_or_panics (stateDB : StateDB) (cfg : FeeConfig) :
  (exists v0 v1 v2 v3 v4 v5 v6 v7,
     cfg = mkFeeConfig (Some v0) (Some v1) (Some v2) (Some v3) (Some v4)
             (Some v5) (Some v6) (Some v7)) \/
  (~ Forall is_Some (FeeConfig_fields cfg) /\
   setFeeConfig stateDB cfg = Panics).
Proof.
  destruct cfg as [f0 f1 f2 f3 f4 f5 f6 f7].
  unfold FeeConfig_fields. cbn [GasLimit TargetBlockRate MinBaseFee TargetGas
    BaseFeeChangeDenominator MinBlockGasCost MaxBlockGasCost
    BlockGasCostStep].
  destruct f0 as [v0|]; [destruct f1 as [v1|]; [destruct f2 as [v2|];
    [destruct f3 as [v3|]; [destruct f4 as [v4|]; [destruct f5 as [v5|];
    [destruct f6 as [v6|]; [destruct f7 as [v7|]|]|]|]|]|]|]|];
    [left; by exists v0, v1, v2, v3, v4, v5, v6, v7|..];
    (right; split;
     [apply not_Forall_is_Some; repeat constructor|reflexivity]).
Qed.

(** X6. [setFeeConfig] stores each field as the absolute value modulo
    2^256: when no field is nil it returns a nil error, and [GetFeeConfig]
    on the state it leaves returns the configuration with every field [v]
    replaced by [|v| mod 2^256], whatever the state was before. *)
Theorem GetFeeConfig_setFeeConfig_truncates (stateDB : StateDB)
    (cfg : FeeConfig) :
  Forall is_Some (FeeConfig_fields cfg) ->
  exists stateDB',
    setFeeConfig stateDB cfg = Returns (stateDB', None) /\
    GetFeeConfig stateDB' = Returns (FeeConfig_map stored256 cfg, None).
Proof.
  intros Hset.
  destruct (setFeeConfig_Some_or_panics stateDB cfg)
    as [(v0 & v1 & v2 & v3 & v4 & v5 & v6 & v7 & ->)|[Hnot _]]; [|done].
  eexists. split; [apply setFeeConfig_stores|].
  cbn [fmap list_fmap].
  rewrite GetFeeConfig_exists by apply Exist_storeFields.
  rewrite storedFeeConfig_storeFields.
  by rewrite !Hash_Big_hashOfBig_any.
Qed.

(** X7. The unknown-field-key error is unreachable.  [GetFeeConfig]
    returns a nil error on every state; [setFeeConfig] either returns a nil
    error or panics, and it panics exactly when some field of the
    configuration is nil. *)
Theorem FeeConfig_no_error (stateDB : StateDB) (cfg : FeeConfig) :
  (exists c, GetFeeConfig stateDB = Returns (c, None)) /\
  (setFeeConfig stateDB cfg = Panics
   <-> ~ Forall is_Some (FeeConfig_fields cfg)) /\
  (forall stateDB' e, setFeeConfig stateDB cfg <> Returns (stateDB', Some e)).
Proof.
  split.
  { destruct (Exist stateDB FeeConfigManagerAddress) eqn:Hex.
    - eexists. by apply GetFeeConfig_exists.
    - eexists. unfold GetFeeConfig. by rewrite Hex. }
  destruct (setFeeConfig_Some_or_panics stateDB cfg)
    as [(v0 & v1 & v2 & v3 & v4 & v5 & v6 & v7 & ->)|[Hnot Hpanic]].
  - rewrite setFeeConfig_stores. split; [|done].
    split; [done|]. intros Hnot. exfalso. apply Hnot.
    unfold FeeConfig_fields. cbn. repeat constructor; eauto.
  - rewrite Hpanic. split; [tauto|done].
Qed.

(** ** The handlers, case by case *)

Lemma lookup_SetState_ne (s : StateDB) (a a' : common.Address)
    (k v : common.Hash) :
  a <> a' -> SetState s a k v !! a' = s !! a'.
Proof. intros Hne. unfold SetState. by rewrite lookup_insert_ne. Qed.

Lemma GetBalance_SetState (s : StateDB) (a a' : common.Address)
    (k v : common.Hash) :
  GetBalance (SetState s a k v) a' = GetBalance s a'.
Proof.
  unfold GetBalance, SetState, getOrNewStateObject.
  destruct (decide (a = a')) as [<-|Hne].
  - rewrite lookup_insert_eq. simpl. by destruct (s !! a).
  - by rewrite lookup_insert_ne.
Qed.

Lemma GetState_SetState_other (s : StateDB) (a a' : common.Address)
    (k k' v : common.Hash) :
  a <> a' -> GetState (SetState s a k v) a' k' = GetState s a' k'.
Proof. intros Hne. unfold GetState. by rewrite lookup_SetState_ne. Qed.

Lemma AddBalance_credit (s : StateDB) (to : common.Address) (amount : Z) :
  AddBalance (if negb (Exist s to) then CreateAccount s to else s) to
    (Some amount)
  = Returns (creditBalance s to amount).
Proof.
  unfold creditBalance, GetBalance. destruct (Exist s to) eqn:Hex.
  - apply Exist_true in Hex as [o Ho]. simpl negb. cbv iota.
    unfold AddBalance, getOrNewStateObject. by rewrite Ho.
  - apply Exist_false in Hex. simpl negb. cbv iota.
    unfold AddBalance, CreateAccount, getOrNewStateObject.
    rewrite lookup_insert_eq, Hex. simpl.
    by rewrite insert_insert_eq.
Qed.

Lemma GetState_creditBalance (s : StateDB) (to a : common.Address)
    (amount : Z) (k : common.Hash) :
  GetState (creditBalance s to amount) a k = GetState s a k.
Proof.
  unfold GetState, creditBalance.
  destruct (decide (to = a)) as [<-|Hne].
  - rewrite lookup_insert_eq. simpl. destruct (s !! to); [done|].
    by rewrite lookup_empty.
  - by rewrite lookup_insert_ne.
Qed.

Lemma GetBalance_creditBalance (s : StateDB) (to a : common.Address)
    (amount : Z) :
  GetBalance (creditBalance s to amount) a
  = if decide (to = a) then GetBalance s a + amount else GetBalance s a.
Proof.
  unfold creditBalance. case_decide as Hto.
  - subst a. unfold GetBalance at 1. by rewrite lookup_insert_eq.
  - unfold GetBalance at 1. rewrite lookup_insert_ne by done. done.
Qed.

(** The mint handler as a list of cases, in the order the code checks
    them. *)
Lemma createMintNativeCoin_run (stateDB : StateDB)
    (caller addr : common.Address) (input : list byte) (suppliedGas : N)
    (readOnly : bool) :
  createMintNativeCoin stateDB caller addr input suppliedGas readOnly
  = Returns
      (if (suppliedGas <? MintGasCost)%N then
         mkResult [] 0%N (Some ErrOutOfGas) stateDB
       else if readOnly then
         mkResult [] (suppliedGas - MintGasCost)%N (Some ErrWriteProtection)
           stateDB
       else if negb (length input =? 64)%nat then
         mkResult [] (suppliedGas - MintGasCost)%N
           (Some (ErrInvalidMintInputLength (length input))) stateDB
       else if negb (IsEnabled (getAllowListStatus stateDB
                                  ContractNativeMinterAddress caller)) then
         mkResult [] (suppliedGas - MintGasCost)%N
           (Some (ErrCannotMint caller)) stateDB
       else
         mkResult [] (suppliedGas - MintGasCost)%N None
           (creditBalance stateDB (take 20 (drop 12 input))
              (Z.of_N (from_be (drop 32 input))))).
Proof.
  unfold createMintNativeCoin, deductGas.
  destruct (suppliedGas <? MintGasCost)%N; [done|].
  destruct readOnly; [done|].
  destruct (Nat.eqb_spec (length input) 64) as [Hlen|Hlen].
  - rewrite UnpackMintInput_ok by done. simpl negb at 1. cbv iota.
    destruct (IsEnabled _); [|done]. simpl negb at 1. cbv iota.
    unfold big.SetBytes. by rewrite AddBalance_credit.
  - by rewrite UnpackMintInput_bad_length.
Qed.

(** The setFeeConfig handler as a list of cases, in the order the code
    checks them. *)
Lemma createSetFeeConfig_run (stateDB : StateDB)
    (caller addr : common.Address) (input : list byte) (suppliedGas : N)
    (readOnly : bool) :
  exists stateDB',
    (length input = 256%nat ->
     setFeeConfig stateDB (UnpackFeeConfigInput input).1
     = Returns (stateDB', None) /\
     GetFeeConfig stateDB' = Returns ((UnpackFeeConfigInput input).1, None))
    /\
    createSetFeeConfig stateDB caller addr input suppliedGas readOnly
    = Returns
        (if (suppliedGas <? SetFeeConfigGasCost)%N then
           mkResult [] 0%N (Some ErrOutOfGas) stateDB
         else if readOnly then
           mkResult [] (suppliedGas - SetFeeConfigGasCost)%N
             (Some ErrWriteProtection) stateDB
         else if negb (length input =? 256)%nat then
           mkResult [] (suppliedGas - SetFeeConfigGasCost)%N
             (Some (ErrInvalidFeeConfigInputLength (length input))) stateDB
         else if negb (IsEnabled (getAllowListStatus stateDB
                                    FeeConfigManagerAddress caller)) then
           mkResult [] (suppliedGas - SetFeeConfigGasCost)%N
             (Some (ErrCannotChangeFee caller)) stateDB
         else
           mkResult [] (suppliedGas - SetFeeConfigGasCost)%N None stateDB').
Proof.
  unfold createSetFeeConfig, deductGas.
  destruct (Nat.eqb_spec (length input) 256) as [Hlen|Hlen].
  - destruct (UnpackFeeConfigInput_uint256 input Hlen)
      as (cfg & Hcfg & Hrange).
    destruct (GetFeeConfig_setFeeConfig stateDB cfg Hrange)
      as (stateDB' & Hset & Hget).
    exists stateDB'. rewrite Hcfg. cbn [fst]. split; [done|].
    destruct (suppliedGas <? SetFeeConfigGasCost)%N; [done|].
    destruct readOnly; [done|]. simpl negb at 1. cbv iota.
    destruct (IsEnabled _); [|done]. simpl negb at 1. cbv iota.
    by rewrite Hset.
  - exists stateDB. split; [done|].
    destruct (suppliedGas <? SetFeeConfigGasCost)%N; [done|].
    destruct readOnly; [done|].
    by rewrite UnpackFeeConfigInput_bad_length.
Qed.

Ltac charged_and_safe_case :=
  unfold charged_and_safe; cbn [gasCost];
  repeat match goal with
  | |- context [(?g <? ?c)%N] => destruct (N.ltb_spec g c)
  | |- context [if ?b then _ else _] => destruct b
  end;
  cbn [remainingGas err state ret] in *;
  (split; [first [done | lia]|]);
  (split; [split; intros ?; first [congruence | done | lia]|]);
  intros ?; first [congruence | done | lia].

(** X8. Every handler returns on every call, and what it returns is
    charged and safe: the gas left is 0 when the budget is below the
    handler's fixed cost and the budget less that cost otherwise, whatever
    the input, the caller and the outcome; the out-of-gas error comes
    exactly with a budget below the cost; and a return with an error has
    empty output and the very state the handler was given. *)
Theorem run_charged_and_safe (h : handler) (stateDB : StateDB)
    (caller addr : common.Address) (input : list byte) (suppliedGas : N)
    (readOnly : bool) :
  exists r,
    run h stateDB caller addr input suppliedGas readOnly = Returns r /\
    charged_and_safe h stateDB suppliedGas r.
Proof.
  destruct h; unfold run.
  - rewrite createMintNativeCoin_run. eexists. split; [reflexivity|].
    charged_and_safe_case.
  - destruct (createSetFeeConfig_run stateDB caller addr input suppliedGas
                readOnly) as (stateDB' & _ & ->).
    eexists. split; [reflexivity|]. charged_and_safe_case.
  - unfold createAllowListRoleSetter, deductGas.
    destruct (N.ltb_spec suppliedGas ModifyAllowListGasCost);
      [|destruct readOnly;
        [|destruct (negb (length input =? allowListInputLen)%nat);
          [|destruct (negb (IsAdmin _))]]];
      (eexists; split; [reflexivity|]); charged_and_safe_case.
  - unfold createReadAllowList, deductGas.
    destruct (N.ltb_spec suppliedGas ReadAllowListGasCost);
      [|destruct (negb (length input =? allowListInputLen)%nat)];
      (eexists; split; [reflexivity|]); charged_and_safe_case.
  - unfold createXChainECRecover, deductGas.
    destruct (N.ltb_spec suppliedGas MintGasCost); [|destruct readOnly];
      (eexists; split; [reflexivity|]); charged_and_safe_case.
  - unfold getXChainECRecover, deductGas.
    destruct (N.ltb_spec suppliedGas ReadAllowListGasCost);
      (eexists; split; [reflexivity|]); charged_and_safe_case.
Qed.

(** X9. The length of the body is checked before the caller's
    permission: with enough gas and the read-only flag unset, a mint call
    whose body is not 64 bytes, and a setFeeConfig call whose body is not
    256 bytes, fail with the invalid-input-length error whatever role the
    caller has, keep the fixed cost and leave the state as it was. *)
Theorem handlers_invalid_length (stateDB : StateDB)
    (caller addr : common.Address) (input : list byte) (suppliedGas : N) :
  ((MintGasCost <= suppliedGas)%N ->
   length input <> 64%nat ->
   createMintNativeCoin stateDB caller addr input suppliedGas false
   = Returns {| ret := []; remainingGas := suppliedGas - MintGasCost;
                err := Some (ErrInvalidMintInputLength (length input));
                state := stateDB |}) /\
  ((SetFeeConfigGasCost <= suppliedGas)%N ->
   length input <> 256%nat ->
   createSetFeeConfig stateDB caller addr input suppliedGas false
   = Returns {| ret := []; remainingGas := suppliedGas - SetFeeConfigGasCost;
                err := Some (ErrInvalidFeeConfigInputLength (length input));
                state := stateDB |}).
Proof.
  split; intros Hgas Hlen.
  - rewrite createMintNativeCoin_run.
    destruct (N.ltb_spec suppliedGas MintGasCost); [lia|].
    by destruct (Nat.eqb_spec (length input) 64).
  - destruct (createSetFeeConfig_run stateDB caller addr input suppliedGas
                false) as (stateDB' & _ & ->).
    destruct (N.ltb_spec suppliedGas SetFeeConfigGasCost); [lia|].
    by destruct (Nat.eqb_spec (length input) 256).
Qed.

Lemma createMintNativeCoin_success (stateDB : StateDB)
    (caller addr : common.Address) (input : list byte) (suppliedGas : N) :
  (MintGasCost <= suppliedGas)%N ->
  length input = 64%nat ->
  IsEnabled (getAllowListStatus stateDB ContractNativeMinterAddress caller)
  = true ->
  createMintNativeCoin stateDB caller addr input suppliedGas false
  = Returns {| ret := []; remainingGas := suppliedGas - MintGasCost;
               err := None;
               state := creditBalance stateDB (take 20 (drop 12 input))
                          (Z.of_N (from_be (drop 32 input))) |}.
Proof.
  intros Hgas Hlen Hrole. rewrite createMintNativeCoin_run, Hrole, Hlen.
  by destruct (N.ltb_spec suppliedGas MintGasCost); [lia|].
Qed.

(** X10. The mint handler never writes a storage slot and never lowers a
    balance: on every call it returns, every slot of every account reads
    after the call as before it, so every role on every contract is what
    it was; no balance is smaller than before; and no account other than
    the one the body names has changed. *)
Theorem createMintNativeCoin_keeps_storage (stateDB : StateDB)
    (caller addr : common.Address) (input : list byte) (suppliedGas : N)
    (readOnly : bool) :
  exists r,
    createMintNativeCoin stateDB caller addr input suppliedGas readOnly
    = Returns r /\
    (forall (a : common.Address) (k : common.Hash),
       GetState (state r) a k = GetState stateDB a k) /\
    (forall c a : common.Address,
       getAllowListStatus (state r) c a = getAllowListStatus stateDB c a) /\
    (forall a : common.Address,
       GetBalance stateDB a <= GetBalance (state r) a) /\
    (forall a : common.Address,
       a <> take 20 (drop 12 input) -> state r !! a = stateDB !! a).
Proof.
  rewrite createMintNativeCoin_run. eexists. split; [reflexivity|].
  repeat match goal with
  | |- context [if ?b then _ else _] => destruct b
  end; cbn [state]; try done.
  assert (forall (a : common.Address) (k : common.Hash),
            GetState (creditBalance stateDB (take 20 (drop 12 input))
                        (Z.of_N (from_be (drop 32 input)))) a k
            = GetState stateDB a k) as Hslots
    by (intros; apply GetState_creditBalance).
  split; [exact Hslots|]. split; [|split].
  - intros c a. unfold getAllowListStatus. by rewrite Hslots.
  - intros a. rewrite GetBalance_creditBalance. case_decide; lia.
  - intros a Ha. unfold creditBalance. by rewrite lookup_insert_ne.
Qed.

Lemma creditBalance_twice (s : StateDB) (to : common.Address) (a1 a2 : Z) :
  creditBalance (creditBalance s to a1) to a2 = creditBalance s to (a1 + a2).
Proof.
  unfold creditBalance at 1. rewrite GetBalance_creditBalance.
  rewrite decide_True by done.
  unfold creditBalance. rewrite lookup_insert_eq, insert_insert_eq.
  do 2 f_equal. lia.
Qed.

(** X11. Two mints add up.  When an enabled caller mints [amount1] and then
    [amount2] to the same address, both calls succeed (the first leaves the
    caller's role untouched) and the state after the second is the one in
    which the balance of that address has grown by [amount1 + amount2];
    hence the order of the two calls does not matter. *)
Theorem createMintNativeCoin_twice (stateDB : StateDB)
    (caller addr : common.Address) (input1 input2 : list byte)
    (gas1 gas2 : N) :
  (MintGasCost <= gas1)%N ->
  (MintGasCost <= gas2)%N ->
  length input1 = 64%nat ->
  length input2 = 64%nat ->
  take 20 (drop 12 input2) = take 20 (drop 12 input1) ->
  IsEnabled (getAllowListStatus stateDB ContractNativeMinterAddress caller)
  = true ->
  exists r1 r2,
    createMintNativeCoin stateDB caller addr input1 gas1 false = Returns r1 /\
    err r1 = None /\
    createMintNativeCoin (state r1) caller addr input2 gas2 false
    = Returns r2 /\
    err r2 = None /\
    state r2
    = creditBalance stateDB (take 20 (drop 12 input1))
        (Z.of_N (from_be (drop 32 input1))
         + Z.of_N (from_be (drop 32 input2))) /\
    GetBalance (state r2) (take 20 (drop 12 input1))
    = GetBalance stateDB (take 20 (drop 12 input1))
      + Z.of_N (from_be (drop 32 input1))
      + Z.of_N (from_be (drop 32 input2)).
Proof.
  intros Hgas1 Hgas2 Hlen1 Hlen2 Hto Hrole.
  do 2 eexists.
  split; [by apply createMintNativeCoin_success|].
  split; [done|]. cbn [state].
  split.
  { apply createMintNativeCoin_success; [done..|].
    unfold getAllowListStatus in *. by rewrite GetState_creditBalance. }
  split; [done|]. cbn [state]. rewrite Hto, creditBalance_twice.
  split; [done|].
  rewrite GetBalance_creditBalance, decide_True by done. lia.
Qed.

(** ** What [setFeeConfig] leaves alone *)

Lemma setFeeConfig_Returns (stateDB stateDB' : StateDB) (cfg : FeeConfig)
    (e : option error) :
  setFeeConfig stateDB cfg = Returns (stateDB', e) ->
  exists v0 v1 v2 v3 v4 v5 v6 v7,
    cfg = mkFeeConfig (Some v0) (Some v1) (Some v2) (Some v3) (Some v4)
            (Some v5) (Some v6) (Some v7) /\
    e = None /\
    stateDB' = storeFields stateDB
                 (common.hashOfBig <$> [v0; v1; v2; v3; v4; v5; v6; v7]).
Proof.
  intros Hset.
  destruct (setFeeConfig_Some_or_panics stateDB cfg)
    as [(v0 & v1 & v2 & v3 & v4 & v5 & v6 & v7 & ->)|[_ Hpanic]];
    [|congruence].
  rewrite setFeeConfig_stores in Hset. injection Hset as <- <-.
  by exists v0, v1, v2, v3, v4, v5, v6, v7.
Qed.

Ltac read_field_slot :=
  rewrite ?GetState_SetState_ne by (apply fieldSlot_ne; lia);
  rewrite GetState_SetState_eq.

Ltac unfold_storeFields :=
  unfold storeFields;
  cbn [fmap list_fmap fieldKeys zip zip_with foldl seq minKey maxKey
       gasLimitKey blockGasCostStepKey Nat.sub Nat.add];
  change minKey with 0%nat.

(** X12. [setFeeConfig] writes the eight slots of the fee config manager
    and nothing else: when it returns, the account of the fee config
    manager exists, every other account is as it was, every balance is as
    it was, and every slot of the fee config manager other than the eight
    reads as before. *)
Theorem setFeeConfig_frame (stateDB stateDB' : StateDB) (cfg : FeeConfig)
    (e : option error) :
  setFeeConfig stateDB cfg = Returns (stateDB', e) ->
  Exist stateDB' FeeConfigManagerAddress = true /\
  (forall a : common.Address,
     a <> FeeConfigManagerAddress -> stateDB' !! a = stateDB !! a) /\
  (forall a : common.Address, GetBalance stateDB' a = GetBalance stateDB a) /\
  (forall k : common.Hash,
     not_fee_slot k ->
     GetState stateDB' FeeConfigManagerAddress k
     = GetState stateDB FeeConfigManagerAddress k).
Proof.
  intros Hset.
  destruct (setFeeConfig_Returns _ _ _ _ Hset)
    as (v0 & v1 & v2 & v3 & v4 & v5 & v6 & v7 & -> & -> & ->).
  split; [apply Exist_storeFields|].
  unfold_storeFields. split; [|split].
  - intros a Ha. by rewrite !lookup_SetState_ne.
  - intros a. by rewrite !GetBalance_SetState.
  - intros k Hk.
    rewrite !GetState_SetState_ne; [done|..];
      apply not_eq_sym, Hk; unfold minKey, maxKey, gasLimitKey,
        blockGasCostStepKey; lia.
Qed.

(** ** Fee configuration slots and allow-list slots *)

Lemma Address_Hash_fieldSlot_iff (a : common.Address) (i : nat) :
  length a = 20%nat ->
  (minKey <= i <= maxKey)%nat ->
  common.Address_Hash a = fieldSlot i <-> i = 0%nat /\ a = common.zeroAddress.
Proof.
  intros Ha Hi. rewrite Address_Hash_20 by done.
  unfold minKey, maxKey, gasLimitKey, blockGasCostStepKey in Hi.
  destruct i as [|i].
  - change (fieldSlot 0) with (zeros 12 ++ common.zeroAddress). split.
    + intros Heq. by apply app_inv_head in Heq.
    + by intros [_ ->].
  - split; [|by intros [[=] _]].
    do 7 (destruct i as [|i]; [by intros [=]|]). lia.
Qed.

Lemma not_fee_slot_Address_Hash (a : common.Address) :
  length a = 20%nat ->
  a <> common.zeroAddress ->
  not_fee_slot (common.Address_Hash a).
Proof.
  intros Ha Hnz i Hi Heq.
  apply Address_Hash_fieldSlot_iff in Heq as [_ ->]; done.
Qed.

(** X13. The slot of the gas limit is the allow-list slot of the zero
    address, and no other slot is shared: for a 20-byte address [a] and a
    field key [i], [a.Hash()] is [Hash{byte(i)}] exactly when [i] is the
    key of the gas limit and [a] is the zero address.  Hence a
    [setFeeConfig] that returns leaves the role of every other 20-byte
    address on the fee config manager, and every role on any other
    contract, as it was. *)
Theorem setFeeConfig_keeps_roles (stateDB stateDB' : StateDB)
    (cfg : FeeConfig) (e : option error) (a : common.Address) (i : nat) :
  length a = 20%nat ->
  (minKey <= i <= maxKey)%nat ->
  setFeeConfig stateDB cfg = Returns (stateDB', e) ->
  (common.Address_Hash a = fieldSlot i
   <-> i = gasLimitKey /\ a = common.zeroAddress) /\
  (a <> common.zeroAddress ->
   GetFeeConfigManagerStatus stateDB' a = GetFeeConfigManagerStatus stateDB a)
  /\
  (forall c : common.Address,
     c <> FeeConfigManagerAddress ->
     getAllowListStatus stateDB' c a = getAllowListStatus stateDB c a).
Proof.
  intros Ha Hi Hset.
  split; [by apply Address_Hash_fieldSlot_iff|].
  destruct (setFeeConfig_Returns _ _ _ _ Hset)
    as (v0 & v1 & v2 & v3 & v4 & v5 & v6 & v7 & -> & -> & ->).
  unfold GetFeeConfigManagerStatus, getAllowListStatus.
  unfold_storeFields. split.
  - intros Hnz. pose proof (not_fee_slot_Address_Hash a Ha Hnz) as Hk.
    rewrite !GetState_SetState_ne; [done|..];
      apply not_eq_sym, Hk; unfold minKey, maxKey, gasLimitKey,
        blockGasCostStepKey; lia.
  - intros c Hc. by rewrite !GetState_SetState_other.
Qed.

Lemma role_of_hash_hashOfBig_small (g : Z) :
  0 <= g <= 2 ->
  role_of_hash (common.hashOfBig g)
  = match g with
    | 1 => AllowListEnabled
    | 2 => AllowListAdmin
    | _ => AllowListNoRole
    end.
Proof.
  intros Hg.
  assert (g = 0 \/ g = 1 \/ g = 2) as [->|[->| ->]] by lia;
    by vm_compute.
Qed.

(** X14. [setFeeConfig] overwrites the role of the zero address: after it
    returns, the allow-list slot of the zero address on the fee config
    manager holds the hash of the gas limit, whatever it held before; with
    a gas limit of 1 the zero address reads as Enabled, with 2 as Admin,
    with 0 as having no role. *)
Theorem setFeeConfig_sets_zero_address_role (stateDB stateDB' : StateDB)
    (cfg : FeeConfig) (e : option error) (g : Z) :
  setFeeConfig stateDB cfg = Returns (stateDB', e) ->
  GasLimit cfg = Some g ->
  GetState stateDB' FeeConfigManagerAddress
    (common.Address_Hash common.zeroAddress)
  = common.hashOfBig g /\
  (0 <= g <= 2 ->
   GetFeeConfigManagerStatus stateDB' common.zeroAddress
   = match g with
     | 1 => AllowListEnabled
     | 2 => AllowListAdmin
     | _ => AllowListNoRole
     end).
Proof.
  intros Hset Hgas.
  destruct (setFeeConfig_Returns _ _ _ _ Hset)
    as (v0 & v1 & v2 & v3 & v4 & v5 & v6 & v7 & -> & -> & ->).
  cbn in Hgas. injection Hgas as ->.
  assert (GetState
            (storeFields stateDB
               (common.hashOfBig <$> [g; v1; v2; v3; v4; v5; v6; v7]))
            FeeConfigManagerAddress (common.Address_Hash common.zeroAddress)
          = common.hashOfBig g) as Hslot.
  { change (common.Address_Hash common.zeroAddress) with (fieldSlot 0).
    unfold_storeFields. by read_field_slot. }
  split; [exact Hslot|].
  intros Hg. unfold GetFeeConfigManagerStatus, getAllowListStatus.
  rewrite Hslot. by apply role_of_hash_hashOfBig_small.
Qed.

(** X15. Minting to the fee config manager changes what [GetFeeConfig]
    returns.  When the fee config manager has no account, [GetFeeConfig]
    returns the struct with all fields nil; after a successful mint whose
    recipient is the fee config manager it returns the configuration with
    all fields zero, although no fee configuration has been stored. *)
Theorem GetFeeConfig_after_mint_to_manager (stateDB : StateDB)
    (caller addr : common.Address) (input : list byte) (suppliedGas : N) :
  (MintGasCost <= suppliedGas)%N ->
  length input = 64%nat ->
  IsEnabled (getAllowListStatus stateDB ContractNativeMinterAddress caller)
  = true ->
  take 20 (drop 12 input) = FeeConfigManagerAddress ->
  Exist stateDB FeeConfigManagerAddress = false ->
  exists r,
    createMintNativeCoin stateDB caller addr input suppliedGas false
    = Returns r /\
    err r = None /\
    GetFeeConfig stateDB = Returns (FeeConfig_zero, None) /\
    GetFeeConfig (state r) = Returns (zeroConfig, None).
Proof.
  intros Hgas Hlen Hrole Hto Hex.
  eexists. split; [by apply createMintNativeCoin_success|].
  split; [done|]. split; [unfold GetFeeConfig; by rewrite Hex|].
  cbn [state]. rewrite Hto.
  rewrite GetFeeConfig_exists
    by (apply Exist_true; unfold creditBalance;
        rewrite lookup_insert_eq; eauto).
  unfold storedFeeConfig. rewrite !GetState_creditBalance.
  apply Exist_false in Hex. unfold GetState. rewrite Hex.
  reflexivity.
Qed.

(** ** Status accessors *)

Lemma role_of_hash_role_to_hash (r : AllowListRole) :
  role_of_hash (role_to_hash r) = r.
Proof. by destruct r; vm_compute. Qed.

(** X16. What [SetContractNativeMinterStatus] writes,
    [GetContractNativeMinterStatus] reads back, and the mint handler
    follows it: after the status of [a] is set to [role], a well-formed
    mint call by [a] with enough gas succeeds exactly when [role] is not
    the no-role value, and is otherwise refused with the state untouched;
    the statuses on the fee config manager are not affected when the two
    contracts have different addresses. *)
Theorem SetContractNativeMinterStatus_then_mint (stateDB : StateDB)
    (a addr : common.Address) (role : AllowListRole) (input : list byte)
    (suppliedGas : N) :
  (MintGasCost <= suppliedGas)%N ->
  length input = 64%nat ->
  GetContractNativeMinterStatus
    (SetContractNativeMinterStatus stateDB a role) a = role /\
  (exists r,
     createMintNativeCoin (SetContractNativeMinterStatus stateDB a role) a
       addr input suppliedGas false = Returns r /\
     (err r = None <-> role <> AllowListNoRole) /\
     (role = AllowListNoRole ->
      err r = Some (ErrCannotMint a) /\
      state r = SetContractNativeMinterStatus stateDB a role)) /\
  (ContractNativeMinterAddress <> FeeConfigManagerAddress ->
   forall b : common.Address,
     GetFeeConfigManagerStatus
       (SetContractNativeMinterStatus stateDB a role) b
     = GetFeeConfigManagerStatus stateDB b).
Proof.
  intros Hgas Hlen.
  assert (getAllowListStatus (SetContractNativeMinterStatus stateDB a role)
            ContractNativeMinterAddress a = role) as Hget.
  { unfold SetContractNativeMinterStatus, getAllowListStatus,
      setAllowListRole.
    by rewrite GetState_SetState_eq, role_of_hash_role_to_hash. }
  split; [exact Hget|]. split.
  - rewrite createMintNativeCoin_run, Hget, Hlen.
    destruct (N.ltb_spec suppliedGas MintGasCost); [lia|].
    eexists. split; [reflexivity|].
    destruct role; cbn; split; try done; split; congruence.
  - intros Hne b.
    unfold GetFeeConfigManagerStatus, SetContractNativeMinterStatus,
      getAllowListStatus, setAllowListRole.
    by rewrite GetState_SetState_other.
Qed.

(** ** Storing the same configuration again *)

Lemma lookup_slot_SetState_eq (s : StateDB) (a : common.Address)
    (k v : common.Hash) :
  lookup_slot (SetState s a k v) a k = Some v.
Proof.
  unfold lookup_slot, SetState. rewrite lookup_insert_eq. simpl.
  by rewrite lookup_insert_eq.
Qed.

Lemma lookup_slot_SetState_ne (s : StateDB) (a : common.Address)
    (k k' v v' : common.Hash) :
  k <> k' ->
  lookup_slot s a k' = Some v' ->
  lookup_slot (SetState s a k v) a k' = Some v'.
Proof.
  intros Hne. unfold lookup_slot, SetState, getOrNewStateObject.
  rewrite lookup_insert_eq. simpl. rewrite lookup_insert_ne by done.
  by destruct (s !! a).
Qed.

Lemma SetState_id (s : StateDB) (a : common.Address) (k v : common.Hash) :
  lookup_slot s a k = Some v -> SetState s a k v = s.
Proof.
  unfold lookup_slot, SetState, getOrNewStateObject.
  destruct (s !! a) as [[b st]|] eqn:Ha; [|done]. simpl.
  intros Hk. rewrite (insert_id st k v Hk). by apply insert_id.
Qed.

Ltac stored_slot :=
  repeat first
    [ apply lookup_slot_SetState_eq
    | apply lookup_slot_SetState_ne; [apply fieldSlot_ne; lia|] ].

(** X17. Storing a configuration twice is storing it once: when
    [setFeeConfig] returns a state, [setFeeConfig] with the same
    configuration on that state returns the same state and a nil error. *)
Theorem setFeeConfig_idempotent (stateDB stateDB' : StateDB)
    (cfg : FeeConfig) (e : option error) :
  setFeeConfig stateDB cfg = Returns (stateDB', e) ->
  setFeeConfig stateDB' cfg = Returns (stateDB', None).
Proof.
  intros Hset.
  destruct (setFeeConfig_Returns _ _ _ _ Hset)
    as (v0 & v1 & v2 & v3 & v4 & v5 & v6 & v7 & -> & -> & ->).
  rewrite setFeeConfig_stores. do 2 f_equal.
  cbn [fmap list_fmap].
  set (h0 := common.hashOfBig v0). set (h1 := common.hashOfBig v1).
  set (h2 := common.hashOfBig v2). set (h3 := common.hashOfBig v3).
  set (h4 := common.hashOfBig v4). set (h5 := common.hashOfBig v5).
  set (h6 := common.hashOfBig v6). set (h7 := common.hashOfBig v7).
  remember (storeFields stateDB [h0; h1; h2; h3; h4; h5; h6; h7]) as s1
    eqn:Hs1.
  assert (lookup_slot s1 FeeConfigManagerAddress (fieldSlot 0) = Some h0 /\
          lookup_slot s1 FeeConfigManagerAddress (fieldSlot 1) = Some h1 /\
          lookup_slot s1 FeeConfigManagerAddress (fieldSlot 2) = Some h2 /\
          lookup_slot s1 FeeConfigManagerAddress (fieldSlot 3) = Some h3 /\
          lookup_slot s1 FeeConfigManagerAddress (fieldSlot 4) = Some h4 /\
          lookup_slot s1 FeeConfigManagerAddress (fieldSlot 5) = Some h5 /\
          lookup_slot s1 FeeConfigManagerAddress (fieldSlot 6) = Some h6 /\
          lookup_slot s1 FeeConfigManagerAddress (fieldSlot 7) = Some h7)
    as (L0 & L1 & L2 & L3 & L4 & L5 & L6 & L7).
  { rewrite Hs1. unfold_storeFields. repeat split; stored_slot. }
  clear Hs1. unfold_storeFields.
  rewrite (SetState_id s1 _ _ _ L0), (SetState_id s1 _ _ _ L1),
    (SetState_id s1 _ _ _ L2), (SetState_id s1 _ _ _ L3),
    (SetState_id s1 _ _ _ L4), (SetState_id s1 _ _ _ L5),
    (SetState_id s1 _ _ _ L6).
  exact (SetState_id s1 _ _ _ L7).
Qed.

(** ** Calls in sequence *)

Lemma getAllowListStatus_setFeeConfig (stateDB stateDB' : StateDB)
    (cfg : FeeConfig) (e : option error) (a : common.Address) :
  setFeeConfig stateDB cfg = Returns (stateDB', e) ->
  length a = 20%nat ->
  a <> common.zeroAddress ->
  getAllowListStatus stateDB' FeeConfigManagerAddress a
  = getAllowListStatus stateDB FeeConfigManagerAddress a.
Proof.
  intros Hset Ha Hnz.
  destruct (setFeeConfig_Returns _ _ _ _ Hset)
    as (v0 & v1 & v2 & v3 & v4 & v5 & v6 & v7 & -> & -> & ->).
  pose proof (not_fee_slot_Address_Hash a Ha Hnz) as Hk.
  unfold getAllowListStatus. unfold_storeFields.
  rewrite !GetState_SetState_ne; [done|..];
    apply not_eq_sym, Hk; unfold minKey, maxKey, gasLimitKey,
      blockGasCostStepKey; lia.
Qed.

(** X18. The last setFeeConfig call wins.  When a caller that is enabled
    and is not the zero address makes two well-formed setFeeConfig calls
    one after the other, both succeed (the first leaves the caller's role
    untouched) and [GetFeeConfig] then returns what the body of the second
    call decodes to. *)
Theorem createSetFeeConfig_twice (stateDB : StateDB)
    (caller addr : common.Address) (input1 input2 : list byte)
    (gas1 gas2 : N) :
  (SetFeeConfigGasCost <= gas1)%N ->
  (SetFeeConfigGasCost <= gas2)%N ->
  length input1 = 256%nat ->
  length input2 = 256%nat ->
  length caller = 20%nat ->
  caller <> common.zeroAddress ->
  IsEnabled (getAllowListStatus stateDB FeeConfigManagerAddress caller)
  = true ->
  exists r1 r2,
    createSetFeeConfig stateDB caller addr input1 gas1 false = Returns r1 /\
    err r1 = None /\
    createSetFeeConfig (state r1) caller addr input2 gas2 false
    = Returns r2 /\
    err r2 = None /\
    GetFeeConfig (state r2) = Returns ((UnpackFeeConfigInput input2).1, None).
Proof.
  intros Hgas1 Hgas2 Hlen1 Hlen2 Hcaller Hnz Hrole.
  destruct (createSetFeeConfig_run stateDB caller addr input1 gas1 false)
    as (s1 & Hs1 & Hrun1).
  destruct (Hs1 Hlen1) as [Hset1 _].
  destruct (createSetFeeConfig_run s1 caller addr input2 gas2 false)
    as (s2 & Hs2 & Hrun2).
  destruct (Hs2 Hlen2) as [_ Hget2].
  rewrite Hrole, Hlen1 in Hrun1.
  destruct (N.ltb_spec gas1 SetFeeConfigGasCost); [lia|].
  cbn in Hrun1.
  rewrite (getAllowListStatus_setFeeConfig _ _ _ _ caller Hset1 Hcaller Hnz),
    Hrole, Hlen2 in Hrun2.
  destruct (N.ltb_spec gas2 SetFeeConfigGasCost); [lia|].
  cbn in Hrun2.
  do 2 eexists. split; [exact Hrun1|]. split; [done|].
  cbn [state]. split; [exact Hrun2|]. by split.
Qed.

Lemma Hash_Big_role_to_hash (role : AllowListRole) :
  common.Hash_Big (role_to_hash role) = Some (Z.of_nat (role_rank role)).
Proof. by destruct role; vm_compute. Qed.

(** X19. Setting a role on the fee config manager leaves the stored fee
    configuration alone, except for the zero address: after
    [SetFeeConfigManagerStatus] for a 20-byte address other than the zero
    address, [GetFeeConfig] returns the eight stored fields as they were;
    after [SetFeeConfigManagerStatus] for the zero address it returns them
    with the gas limit replaced by the number of the role (0, 1 or 2). *)
Theorem GetFeeConfig_SetFeeConfigManagerStatus (stateDB : StateDB)
    (a : common.Address) (role : AllowListRole) :
  length a = 20%nat ->
  GetFeeConfigManagerStatus (SetFeeConfigManagerStatus stateDB a role) a
  = role /\
  (a <> common.zeroAddress ->
   GetFeeConfig (SetFeeConfigManagerStatus stateDB a role)
   = Returns (storedFeeConfig stateDB, None)) /\
  (a = common.zeroAddress ->
   GetFeeConfig (SetFeeConfigManagerStatus stateDB a role)
   = Returns (set_GasLimit (Some (Z.of_nat (role_rank role)))
                (storedFeeConfig stateDB), None)).
Proof.
  intros Ha.
  unfold GetFeeConfigManagerStatus, SetFeeConfigManagerStatus,
    getAllowListStatus, setAllowListRole.
  split; [by rewrite GetState_SetState_eq, role_of_hash_role_to_hash|].
  split.
  - intros Hnz. pose proof (not_fee_slot_Address_Hash a Ha Hnz) as Hk.
    rewrite GetFeeConfig_exists by apply Exist_SetState.
    unfold storedFeeConfig.
    rewrite !GetState_SetState_ne; [done|..];
      apply Hk; unfold minKey, maxKey, gasLimitKey, targetBlockRateKey,
        minBaseFeeKey, targetGasKey, baseFeeChangeDenominatorKey,
        minBlockGasCostKey, maxBlockGasCostKey, blockGasCostStepKey; lia.
  - intros ->.
    rewrite GetFeeConfig_exists by apply Exist_SetState.
    change (common.Address_Hash common.zeroAddress) with (fieldSlot 0).
    unfold storedFeeConfig, set_GasLimit.
    cbn [GasLimit TargetBlockRate MinBaseFee TargetGas
      BaseFeeChangeDenominator MinBlockGasCost MaxBlockGasCost
      BlockGasCostStep].
    unfold gasLimitKey, targetBlockRateKey, minBaseFeeKey, targetGasKey,
      baseFeeChangeDenominatorKey, minBlockGasCostKey, maxBlockGasCostKey,
      blockGasCostStepKey.
    rewrite GetState_SetState_eq, Hash_Big_role_to_hash.
    rewrite !GetState_SetState_ne by (apply fieldSlot_ne; lia).
    done.
Qed.

(** X20. The unpack functions take the body without the selector: what
    [PackMintInput] and [PackSetFeeConfigInput] return, passed on whole,
    is refused by [UnpackMintInput] and [UnpackFeeConfigInput] with the
    invalid-input-length error (for 68, respectively 260, bytes). *)
Theorem Unpack_with_selector_fails (to : common.Address) (amount : option Z)
    (cfg : FeeConfig) (packed : list byte) (e : option error) :
  (PackMintInput to amount = Returns (packed, e) ->
   UnpackMintInput packed
   = (common.zeroAddress, None, Some (ErrInvalidMintInputLength 68))) /\
  (PackSetFeeConfigInput cfg = Returns (packed, e) ->
   UnpackFeeConfigInput packed
   = (FeeConfig_zero, Some (ErrInvalidFeeConfigInputLength 260))).
Proof.
  split; intros Hpack.
  - assert (length packed = 68%nat) as Hlen.
    { destruct amount as [z|]; [|done].
      destruct (decide (Z.abs z < 2 ^ 256)) as [Hz|Hz].
      - rewrite PackMintInput_Some in Hpack by done.
        assert (packed = selector_bytes mintSignature
                           ++ common.Address_Hash to
                           ++ be_bytes 32 (Z.abs_N z)) as -> by congruence.
        rewrite !length_app, length_selector_bytes, length_Address_Hash,
          length_be_bytes. lia.
      - unfold PackMintInput in Hpack.
        rewrite FillBytes_Some, decide_False in Hpack; done. }
    rewrite UnpackMintInput_bad_length by lia. by rewrite Hlen.
  - assert (length packed = 260%nat) as Hlen.
    { destruct (PackSetFeeConfigInput_cases cfg)
        as [(_ & packed' & Hpacked' & Hlen' & _)|[_ Hpanic]];
        congruence. }
    rewrite UnpackFeeConfigInput_bad_length by lia. by rewrite Hlen.
Qed.

End CodeProperties.

(** ** The further properties on concrete calls *)

Section MoreExamples.
#[local] Existing Instance exampleParams.

Ltac compute_hyp := vm_compute; first [reflexivity | discriminate | done].

Lemma PackMintInput_absolute_value_witness :
  length dave = 20%nat /\
  Z.abs (-500) < 2 ^ 256 /\
  exists packed,
    PackMintInput dave (Some (-500)) = Returns (packed, None) /\
    length packed = 68%nat /\
    take selectorLen packed = selector_bytes mintSignature /\
    UnpackMintInput (drop selectorLen packed)
    = (dave, Some (Z.abs (-500)), None).
Proof.
  assert (length dave = 20%nat) as Hlen by reflexivity.
  assert (Z.abs (-500) < 2 ^ 256) as Hamount by compute_hyp.
  split; [exact Hlen|]. split; [exact Hamount|].
  exact (PackMintInput_absolute_value dave (-500) Hlen Hamount).
Defined.

Lemma fits256_7 : fits256 (Some 7).
Proof. exists 7. split; [reflexivity|compute_hyp]. Qed.

Lemma PackMintInput_panics_iff_witness :
  fits256 (Some 7) /\
  ~ fits256 None /\
  (exists packed,
     PackMintInput dave (Some 7) = Returns (packed, None) /\
     length packed = 68%nat) /\
  PackMintInput dave None = Panics.
Proof.
  assert (~ fits256 None) as Hnil by (by intros (z & [=] & _)).
  split; [exact fits256_7|]. split; [exact Hnil|]. split.
  - exact (proj2 (PackMintInput_panics_iff dave (Some 7)) fits256_7).
  - exact (proj2 (proj1 (PackMintInput_panics_iff dave None)) Hnil).
Defined.

Lemma PackMintInput_UnpackMintInput_witness :
  length (mintBody 0xFFFFFFFFFFFFFFFFFFFFFFFF dave 500) = 64%nat /\
  exists to amount,
    UnpackMintInput (mintBody 0xFFFFFFFFFFFFFFFFFFFFFFFF dave 500)
    = (to, amount, None) /\
    PackMintInput to amount
    = Returns (selector_bytes mintSignature ++ zeros 12
                 ++ drop 12 (mintBody 0xFFFFFFFFFFFFFFFFFFFFFFFF dave 500),
               None).
Proof.
  assert (length (mintBody 0xFFFFFFFFFFFFFFFFFFFFFFFF dave 500) = 64%nat)
    as Hlen by reflexivity.
  split; [exact Hlen|].
  destruct (PackMintInput_UnpackMintInput
              (mintBody 0xFFFFFFFFFFFFFFFFFFFFFFFF dave 500) Hlen)
    as (to & amount & Hunpack & Hpack & _).
  exists to, amount. split; [exact Hunpack|exact Hpack].
Defined.

Lemma PackSetFeeConfigInput_UnpackFeeConfigInput_witness :
  length (be_bytes 256 123456789) = 256%nat /\
  length (be_bytes 256 1) = 256%nat /\
  PackSetFeeConfigInput (UnpackFeeConfigInput (be_bytes 256 123456789)).1
  = Returns (selector_bytes setFeeConfigSignature ++ be_bytes 256 123456789,
             None).
Proof.
  assert (length (be_bytes 256 123456789) = 256%nat) as Hlen
    by apply length_be_bytes.
  assert (length (be_bytes 256 1) = 256%nat) as Hlen'
    by apply length_be_bytes.
  split; [exact Hlen|]. split; [exact Hlen'|].
  exact (proj1 (PackSetFeeConfigInput_UnpackFeeConfigInput
                  (be_bytes 256 123456789) (be_bytes 256 1) Hlen Hlen')).
Defined.

Lemma fits256_scenarioConfig :
  Forall fits256 (FeeConfig_fields (FeeConfig_map Z.opp scenarioConfig)).
Proof.
  repeat constructor; eexists; (split; [reflexivity|compute_hyp]).
Qed.

Lemma PackSetFeeConfigInput_panics_iff_witness :
  Forall fits256 (FeeConfig_fields (FeeConfig_map Z.opp scenarioConfig)) /\
  exists packed,
    PackSetFeeConfigInput (FeeConfig_map Z.opp scenarioConfig)
    = Returns (packed, None) /\
    length packed = 260%nat /\
    UnpackFeeConfigInput (drop selectorLen packed)
    = (FeeConfig_map Z.abs (FeeConfig_map Z.opp scenarioConfig), None).
Proof.
  split; [exact fits256_scenarioConfig|].
  exact (proj1 (PackSetFeeConfigInput_panics_iff
                  (FeeConfig_map Z.opp scenarioConfig))
           fits256_scenarioConfig).
Defined.

Lemma is_Some_maxConfig :
  Forall is_Some (FeeConfig_fields (FeeConfig_map (Z.mul (-2)) maxConfig)).
Proof. repeat constructor; eexists; reflexivity. Qed.

Lemma GetFeeConfig_setFeeConfig_truncates_witness :
  Forall is_Some (FeeConfig_fields (FeeConfig_map (Z.mul (-2)) maxConfig)) /\
  exists stateDB',
    setFeeConfig seededState (FeeConfig_map (Z.mul (-2)) maxConfig)
    = Returns (stateDB', None) /\
    GetFeeConfig stateDB'
    = Returns (FeeConfig_map stored256
                 (FeeConfig_map (Z.mul (-2)) maxConfig), None).
Proof.
  split; [exact is_Some_maxConfig|].
  exact (GetFeeConfig_setFeeConfig_truncates seededState
           (FeeConfig_map (Z.mul (-2)) maxConfig) is_Some_maxConfig).
Defined.

Lemma FeeConfig_no_error_witness :
  ~ Forall is_Some (FeeConfig_fields FeeConfig_zero) /\
  setFeeConfig seededState FeeConfig_zero = Panics.
Proof.
  assert (~ Forall is_Some (FeeConfig_fields FeeConfig_zero)) as Hnil.
  { intros Hall. apply Forall_cons in Hall as [[? [=]] _]. }
  split; [exact Hnil|].
  exact (proj2 (proj1 (proj2 (FeeConfig_no_error seededState
                                FeeConfig_zero))) Hnil).
Defined.

Lemma run_charged_and_safe_witness :
  exists r,
    run SetFeeConfig seededState bob FeeConfigManagerAddress
      (be_bytes 256 1) 170000%N false = Returns r /\
    charged_and_safe SetFeeConfig seededState 170000%N r.
Proof.
  exact (run_charged_and_safe SetFeeConfig seededState bob
           FeeConfigManagerAddress (be_bytes 256 1) 170000%N false).
Defined.

Lemma handlers_invalid_length_witness :
  (MintGasCost <= 40000)%N /\
  length (mintBody 0 dave 1 ++ [x00]) <> 64%nat /\
  createMintNativeCoin seededState bob ContractNativeMinterAddress
    (mintBody 0 dave 1 ++ [x00]) 40000%N false
  = Returns {| ret := []; remainingGas := (40000 - MintGasCost)%N;
               err := Some (ErrInvalidMintInputLength
                              (length (mintBody 0 dave 1 ++ [x00])));
               state := seededState |}.
Proof.
  assert (MintGasCost <= 40000)%N as Hgas by compute_hyp.
  assert (length (mintBody 0 dave 1 ++ [x00]) <> 64%nat) as Hlen
    by compute_hyp.
  split; [exact Hgas|]. split; [exact Hlen|].
  exact (proj1 (handlers_invalid_length seededState bob
                  ContractNativeMinterAddress (mintBody 0 dave 1 ++ [x00])
                  40000%N) Hgas Hlen).
Defined.

Lemma createMintNativeCoin_keeps_storage_witness :
  exists r,
    createMintNativeCoin seededState alice ContractNativeMinterAddress
      (mintBody 0 dave 500) 40000%N false = Returns r /\
    (forall (a : common.Address) (k : common.Hash),
       GetState (state r) a k = GetState seededState a k).
Proof.
  destruct (createMintNativeCoin_keeps_storage seededState alice
              ContractNativeMinterAddress (mintBody 0 dave 500) 40000%N
              false) as (r & Hrun & Hslots & _).
  exists r. split; [exact Hrun|exact Hslots].
Defined.

Lemma createMintNativeCoin_twice_witness :
  (MintGasCost <= 40000)%N /\
  length (mintBody 0 dave 500) = 64%nat /\
  length (mintBody 0xFF dave 7) = 64%nat /\
  take 20 (drop 12 (mintBody 0xFF dave 7))
  = take 20 (drop 12 (mintBody 0 dave 500)) /\
  IsEnabled (getAllowListStatus seededState ContractNativeMinterAddress alice)
  = true /\
  exists r1 r2,
    createMintNativeCoin seededState alice ContractNativeMinterAddress
      (mintBody 0 dave 500) 40000%N false = Returns r1 /\
    createMintNativeCoin (state r1) alice ContractNativeMinterAddress
      (mintBody 0xFF dave 7) 40000%N false = Returns r2 /\
    GetBalance (state r2) (take 20 (drop 12 (mintBody 0 dave 500)))
    = GetBalance seededState (take 20 (drop 12 (mintBody 0 dave 500)))
      + Z.of_N (from_be (drop 32 (mintBody 0 dave 500)))
      + Z.of_N (from_be (drop 32 (mintBody 0xFF dave 7))).
Proof.
  assert (MintGasCost <= 40000)%N as Hgas by compute_hyp.
  assert (length (mintBody 0 dave 500) = 64%nat) as Hlen1 by reflexivity.
  assert (length (mintBody 0xFF dave 7) = 64%nat) as Hlen2 by reflexivity.
  assert (take 20 (drop 12 (mintBody 0xFF dave 7))
          = take 20 (drop 12 (mintBody 0 dave 500))) as Hto by reflexivity.
  assert (IsEnabled
            (getAllowListStatus seededState ContractNativeMinterAddress alice)
          = true) as Hrole by compute_hyp.
  split; [exact Hgas|]. split; [exact Hlen1|]. split; [exact Hlen2|].
  split; [exact Hto|]. split; [exact Hrole|].
  destruct (createMintNativeCoin_twice seededState alice
              ContractNativeMinterAddress (mintBody 0 dave 500)
              (mintBody 0xFF dave 7) 40000%N 40000%N
              Hgas Hgas Hlen1 Hlen2 Hto Hrole)
    as (r1 & r2 & Hrun1 & _ & Hrun2 & _ & _ & Hbal).
  exists r1, r2. split; [exact Hrun1|]. split; [exact Hrun2|exact Hbal].
Defined.

(** [setFeeConfig] of the scenario's configuration on the seeded state. *)
Lemma setFeeConfig_scenario :
  setFeeConfig seededState scenarioConfig
  = Returns (storeFields seededState
               (common.hashOfBig <$>
                  [21000000; 2; 25000000000; 15000000; 36; 0; 10000000;
                   100000]),
             None).
Proof. reflexivity. Qed.

(** The same with a gas limit of 1. *)
Lemma setFeeConfig_gas_limit_1 :
  setFeeConfig seededState (set_GasLimit (Some 1) scenarioConfig)
  = Returns (storeFields seededState
               (common.hashOfBig <$>
                  [1; 2; 25000000000; 15000000; 36; 0; 10000000; 100000]),
             None).
Proof. reflexivity. Qed.

Lemma setFeeConfig_frame_witness :
  setFeeConfig seededState scenarioConfig
  = Returns (storeFields seededState
               (common.hashOfBig <$>
                  [21000000; 2; 25000000000; 15000000; 36; 0; 10000000;
                   100000]),
             None) /\
  forall a : common.Address,
    GetBalance
      (storeFields seededState
         (common.hashOfBig <$>
            [21000000; 2; 25000000000; 15000000; 36; 0; 10000000; 100000]))
      a
    = GetBalance seededState a.
Proof.
  split; [exact setFeeConfig_scenario|].
  exact (proj1 (proj2 (proj2 (setFeeConfig_frame _ _ _ _
                                setFeeConfig_scenario)))).
Defined.

Lemma setFeeConfig_keeps_roles_witness :
  length alice = 20%nat /\
  (minKey <= 3 <= maxKey)%nat /\
  alice <> common.zeroAddress /\
  GetFeeConfigManagerStatus
    (storeFields seededState
       (common.hashOfBig <$>
          [21000000; 2; 25000000000; 15000000; 36; 0; 10000000; 100000]))
    alice
  = GetFeeConfigManagerStatus seededState alice.
Proof.
  assert (length alice = 20%nat) as Hlen by reflexivity.
  assert (minKey <= 3 <= maxKey)%nat as Hkey by (vm_compute; lia).
  assert (alice <> common.zeroAddress) as Hnz by compute_hyp.
  split; [exact Hlen|]. split; [exact Hkey|]. split; [exact Hnz|].
  exact (proj1 (proj2 (setFeeConfig_keeps_roles _ _ _ _ alice 3 Hlen Hkey
                         setFeeConfig_scenario)) Hnz).
Defined.

Lemma setFeeConfig_sets_zero_address_role_witness :
  GasLimit (set_GasLimit (Some 1) scenarioConfig) = Some 1 /\
  0 <= 1 <= 2 /\
  GetFeeConfigManagerStatus seededState common.zeroAddress
  = AllowListNoRole /\
  GetFeeConfigManagerStatus
    (storeFields seededState
       (common.hashOfBig <$>
          [1; 2; 25000000000; 15000000; 36; 0; 10000000; 100000]))
    common.zeroAddress
  = AllowListEnabled.
Proof.
  assert (GasLimit (set_GasLimit (Some 1) scenarioConfig) = Some 1) as Hgas
    by reflexivity.
  assert (0 <= 1 <= 2) as Hsmall by lia.
  split; [exact Hgas|]. split; [exact Hsmall|]. split; [compute_hyp|].
  exact (proj2 (setFeeConfig_sets_zero_address_role _ _ _ _ 1
                  setFeeConfig_gas_limit_1 Hgas) Hsmall).
Defined.

Lemma GetFeeConfig_after_mint_to_manager_witness :
  (MintGasCost <= 40000)%N /\
  length (mintBody 0 FeeConfigManagerAddress 5) = 64%nat /\
  IsEnabled
    (getAllowListStatus
       (SetContractNativeMinterStatus ∅ alice AllowListEnabled)
       ContractNativeMinterAddress alice) = true /\
  take 20 (drop 12 (mintBody 0 FeeConfigManagerAddress 5))
  = FeeConfigManagerAddress /\
  Exist (SetContractNativeMinterStatus ∅ alice AllowListEnabled)
    FeeConfigManagerAddress = false /\
  exists r,
    createMintNativeCoin
      (SetContractNativeMinterStatus ∅ alice AllowListEnabled) alice
      ContractNativeMinterAddress (mintBody 0 FeeConfigManagerAddress 5)
      40000%N false = Returns r /\
    err r = None /\
    GetFeeConfig (SetContractNativeMinterStatus ∅ alice AllowListEnabled)
    = Returns (FeeConfig_zero, None) /\
    GetFeeConfig (state r) = Returns (zeroConfig, None).
Proof.
  assert (MintGasCost <= 40000)%N as Hgas by compute_hyp.
  assert (length (mintBody 0 FeeConfigManagerAddress 5) = 64%nat) as Hlen
    by reflexivity.
  assert (IsEnabled
            (getAllowListStatus
               (SetContractNativeMinterStatus ∅ alice AllowListEnabled)
               ContractNativeMinterAddress alice) = true) as Hrole
    by compute_hyp.
  assert (take 20 (drop 12 (mintBody 0 FeeConfigManagerAddress 5))
          = FeeConfigManagerAddress) as Hto by reflexivity.
  assert (Exist (SetContractNativeMinterStatus ∅ alice AllowListEnabled)
            FeeConfigManagerAddress = false) as Hex by compute_hyp.
  split; [exact Hgas|]. split; [exact Hlen|]. split; [exact Hrole|].
  split; [exact Hto|]. split; [exact Hex|].
  exact (GetFeeConfig_after_mint_to_manager _ alice
           ContractNativeMinterAddress _ 40000%N Hgas Hlen Hrole Hto Hex).
Defined.

Lemma SetContractNativeMinterStatus_then_mint_witness :
  (MintGasCost <= 40000)%N /\
  length (mintBody 0 dave 500) = 64%nat /\
  GetContractNativeMinterStatus
    (SetContractNativeMinterStatus seededState bob AllowListEnabled) bob
  = AllowListEnabled.
Proof.
  assert (MintGasCost <= 40000)%N as Hgas by compute_hyp.
  assert (length (mintBody 0 dave 500) = 64%nat) as Hlen by reflexivity.
  split; [exact Hgas|]. split; [exact Hlen|].
  exact (proj1 (SetContractNativeMinterStatus_then_mint seededState bob
                  ContractNativeMinterAddress AllowListEnabled
                  (mintBody 0 dave 500) 40000%N Hgas Hlen)).
Defined.

Lemma setFeeConfig_idempotent_witness :
  setFeeConfig seededState scenarioConfig
  = Returns (storeFields seededState
               (common.hashOfBig <$>
                  [21000000; 2; 25000000000; 15000000; 36; 0; 10000000;
                   100000]),
             None) /\
  setFeeConfig
    (storeFields seededState
       (common.hashOfBig <$>
          [21000000; 2; 25000000000; 15000000; 36; 0; 10000000; 100000]))
    scenarioConfig
  = Returns (storeFields seededState
               (common.hashOfBig <$>
                  [21000000; 2; 25000000000; 15000000; 36; 0; 10000000;
                   100000]),
             None).
Proof.
  split; [exact setFeeConfig_scenario|].
  exact (setFeeConfig_idempotent _ _ _ _ setFeeConfig_scenario).
Defined.

Lemma createSetFeeConfig_twice_witness :
  (SetFeeConfigGasCost <= 170000)%N /\
  length (be_bytes 256 123456789) = 256%nat /\
  length (be_bytes 256 1) = 256%nat /\
  length alice = 20%nat /\
  alice <> common.zeroAddress /\
  IsEnabled (getAllowListStatus seededState FeeConfigManagerAddress alice)
  = true /\
  exists r1 r2,
    createSetFeeConfig seededState alice FeeConfigManagerAddress
      (be_bytes 256 123456789) 170000%N false = Returns r1 /\
    createSetFeeConfig (state r1) alice FeeConfigManagerAddress
      (be_bytes 256 1) 170000%N false = Returns r2 /\
    GetFeeConfig (state r2)
    = Returns ((UnpackFeeConfigInput (be_bytes 256 1)).1, None).
Proof.
  assert (SetFeeConfigGasCost <= 170000)%N as Hgas by compute_hyp.
  assert (length (be_bytes 256 123456789) = 256%nat) as Hlen1
    by apply length_be_bytes.
  assert (length (be_bytes 256 1) = 256%nat) as Hlen2
    by apply length_be_bytes.
  assert (length alice = 20%nat) as Hlen by reflexivity.
  assert (alice <> common.zeroAddress) as Hnz by compute_hyp.
  assert (IsEnabled
            (getAllowListStatus seededState FeeConfigManagerAddress alice)
          = true) as Hrole by compute_hyp.
  split; [exact Hgas|]. split; [exact Hlen1|]. split; [exact Hlen2|].
  split; [exact Hlen|]. split; [exact Hnz|]. split; [exact Hrole|].
  destruct (createSetFeeConfig_twice seededState alice
              FeeConfigManagerAddress (be_bytes 256 123456789)
              (be_bytes 256 1) 170000%N 170000%N
              Hgas Hgas Hlen1 Hlen2 Hlen Hnz Hrole)
    as (r1 & r2 & Hrun1 & _ & Hrun2 & _ & Hget).
  exists r1, r2. split; [exact Hrun1|]. split; [exact Hrun2|exact Hget].
Defined.

Lemma GetFeeConfig_SetFeeConfigManagerStatus_witness :
  length common.zeroAddress = 20%nat /\
  GetFeeConfig
    (SetFeeConfigManagerStatus seededState common.zeroAddress AllowListAdmin)
  = Returns (set_GasLimit (Some (Z.of_nat (role_rank AllowListAdmin)))
               (storedFeeConfig seededState), None).
Proof.
  assert (length common.zeroAddress = 20%nat) as Hlen by reflexivity.
  split; [exact Hlen|].
  exact (proj2 (proj2 (GetFeeConfig_SetFeeConfigManagerStatus seededState
                         common.zeroAddress AllowListAdmin Hlen))
           eq_refl).
Defined.

Lemma Unpack_with_selector_fails_witness :
  PackMintInput dave (Some 500)
  = Returns (selector_bytes mintSignature ++ common.Address_Hash dave
               ++ be_bytes 32 500, None) /\
  UnpackMintInput (selector_bytes mintSignature ++ common.Address_Hash dave
                     ++ be_bytes 32 500)
  = (common.zeroAddress, None, Some (ErrInvalidMintInputLength 68)).
Proof.
  assert (PackMintInput dave (Some 500)
          = Returns (selector_bytes mintSignature ++ common.Address_Hash dave
                       ++ be_bytes 32 500, None)) as Hpack by reflexivity.
  split; [exact Hpack|].
  exact (proj1 (Unpack_with_selector_fails dave (Some 500) FeeConfig_zero
                  _ None) Hpack).
Defined.

End MoreExamples.
